(** * bauh: the adaptable file downloader

    A shallow embedding of [bauh/view/core/downloader.py]
    (class [AdaptableFileDownloader]) and the properties its specification
    states about it: which tool is picked, how many threads are asked for,
    and what a call of [download] does to the file system, the log and the
    progress watcher on each of its paths. *)

From Stdlib Require Import ZArith QArith Qround Ascii String.
From stdpp Require Import base decidable option list strings pretty gmap.

Open Scope Z_scope.
Open Scope string_scope.

(** * Python values *)

Module Py.

(** [bool(x)] for an [Optional[str]]: [None] and [''] are falsy. *)
Definition truthy_str (o : option string) : bool :=
  match o with
  | Some s => negb (String.eqb s EmptyString)
  | None => false
  end.

(** The string of an [Optional[str]] that has been tested truthy. *)
Definition the_str (o : option string) : string := default EmptyString o.

(** [bool(x)] for an [Optional[int]]: [None] and [0] are falsy. *)
Definition truthy_int (o : option Z) : bool :=
  match o with
  | Some n => negb (Z.eqb n 0)
  | None => false
  end.

(** [a / b] on integers is true division.  The quotient is kept exact here;
    CPython rounds it to the nearest binary64, which for the dividends
    that reach the division in this program (below 16,000,000, divided by
    1,000,000) cannot move it across an integer: a quotient that is not
    an integer is at least 1e-6 away from one. *)
Definition truediv (a b : Z) : Q := (inject_Z a / inject_Z b)%Q.

(** [math.floor] *)
Definition floor (q : Q) : Z := Qfloor q.

(** [s.split(sep)] for a one-character separator: never an empty list. *)
Fixpoint split_chars (sep : ascii) (cur : list ascii) (cs : list ascii)
  : list (list ascii) :=
  match cs with
  | [] => [reverse cur]
  | c :: cs' =>
      if Ascii.eqb c sep
      then reverse cur :: split_chars sep [] cs'
      else split_chars sep (c :: cur) cs'
  end.

Definition split (sep : ascii) (s : string) : list string :=
  string_of_list_ascii <$> split_chars sep [] (list_ascii_of_string s).

(** [sep.join(parts)] *)
Fixpoint join (sep : string) (parts : list string) : string :=
  match parts with
  | [] => EmptyString
  | [p] => p
  | p :: rest => p ++ sep ++ join sep rest
  end.

(** [parts[-1]] of a list known to be non-empty ([split] results). *)
Definition last_item (parts : list string) : string := List.last parts EmptyString.

(** [parts[:-1]] *)
Definition but_last (parts : list string) : list string := removelast parts.

(** [str(n)] for an integer. *)
Definition str_of_int (n : Z) : string := pretty n.

(** [s.rstrip('/')] *)
Fixpoint drop_slashes (cs : list ascii) : list ascii :=
  match cs with
  | c :: cs' => if Ascii.eqb c "/"%char then drop_slashes cs' else cs
  | [] => []
  end.

Definition rstrip_slash (s : string) : string :=
  string_of_list_ascii
    (reverse (drop_slashes (reverse (list_ascii_of_string s)))).

(** [needle in hay] on strings. *)
Fixpoint contains (needle hay : string) : bool :=
  if String.prefix needle hay then true
  else match hay with
       | EmptyString => false
       | String _ rest => contains needle rest
       end.

End Py.

(** * The host and the interpreter *)

(** What a call sees of the machine it runs on: [shutil.which], the lookup of
    an executable on the PATH ([None] when there is none). *)
Record Host := { which : string -> option string }.

(** Iterating over a Python [set] visits every element once, in an order the
    language leaves open (for strings it changes with the hash seed).  An
    interpreter fixes one such order. *)
Record Interp := {
  set_iter : gset string -> list string;
  set_iter_perm : forall X, set_iter X ≡ₚ elements X
}.

(** * The downloader object *)

(** The fields of [AdaptableFileDownloader] that drive its decisions.  The
    logger, the translations and the HTTP client are part of the environment
    a call runs in. *)
Record Downloader := {
  multithread_enabled : bool;
  multithread_client : option string;
  check_ssl : bool
}.

(** [self.supported_multithread_clients], set once by [__init__]. *)
Definition supported_multithread_clients : list string := ["aria2"; "axel"].

Section Tools.

Variable I : Interp.
Variable h : Host.

Definition is_aria2c_available : bool := Py.truthy_str (which h "aria2c").
Definition is_axel_available : bool := Py.truthy_str (which h "axel").
Definition is_wget_available : bool := Py.truthy_str (which h "wget").

Definition is_multithreaded_client_available (name : string) : bool :=
  if String.eqb name "aria2" then is_aria2c_available
  else if String.eqb name "axel" then is_axel_available
  else false.

(** [for client in clients: if available(client): return client], falling
    off the end with [None]. *)
Fixpoint first_available (clients : list string) : option string :=
  match clients with
  | [] => None
  | client :: rest =>
      if is_multithreaded_client_available client then Some client
      else first_available rest
  end.

Definition get_available_multithreaded_tool (self : Downloader)
  : option string :=
  if multithread_enabled self then
    match multithread_client self with
    | Some preferred =>
        if bool_decide (preferred ∈ supported_multithread_clients) then
          (* [{*self.supported_multithread_clients}]: a fresh set *)
          let possible_clients : gset string :=
            list_to_set supported_multithread_clients in
          if is_multithreaded_client_available preferred then Some preferred
          else
            (* [remove] cannot raise: [preferred] is in the set *)
            let possible_clients := possible_clients ∖ {[preferred]} in
            first_available (set_iter I possible_clients)
        else first_available supported_multithread_clients
    | None => first_available supported_multithread_clients
    end
  else None.

Definition is_multithreaded (self : Downloader) : bool :=
  Py.truthy_str (get_available_multithreaded_tool self).

Definition can_work (self : Downloader) : bool :=
  is_wget_available || is_multithreaded self.

Definition list_available_multithreaded_clients : list string :=
  List.filter is_multithreaded_client_available supported_multithread_clients.

End Tools.

(** [_get_appropriate_threads_number]; it reads nothing of [self]. *)
Definition _get_appropriate_threads_number (max_threads known_size : option Z)
  : Z :=
  let by_size :=
    match known_size with
    | Some size =>
        if Py.truthy_int known_size then
          let threads :=
            if Z.leb 16000000 size then 16
            else Py.floor (Py.truediv size 1000000) in
          if Z.leb threads 0 then 1 else threads
        else 16
    | None => 16
    end in
  match max_threads with
  | Some n =>
      if Py.truthy_int max_threads && Z.ltb 0 n then n else by_size
  | None => by_size
  end.

(** ** The backend policy as the specification words it *)

Module Policy.

(** The capable backends, in their fixed priority order. *)
Definition catalog : list string := ["aria2"; "axel"].

(** The executable that stands for a backend. *)
Definition executable (backend : string) : option string :=
  if String.eqb backend "aria2" then Some "aria2c"
  else if String.eqb backend "axel" then Some "axel"
  else None.

Definition detected (h : Host) (backend : string) : bool :=
  match executable backend with
  | Some exe => Py.truthy_str (which h exe)
  | None => false
  end.

Definition recognized (backend : string) : bool :=
  existsb (String.eqb backend) catalog.

(** The first backend of [candidates] detected on the host. *)
Definition scan (h : Host) (candidates : list string) : option string :=
  List.find (detected h) candidates.

(** [resolve(preferredBackendId, multiThreadEnabled)] *)
Definition resolve (h : Host) (preferred : option string) (enabled : bool)
  : option string :=
  if enabled then
    match preferred with
    | Some p =>
        if recognized p then
          if detected h p then Some p
          else scan h (List.filter (fun c => negb (String.eqb c p)) catalog)
        else scan h catalog
    | None => scan h catalog
    end
  else None.

End Policy.

(** * The world a download runs in *)

(** The exception classes the code tells apart: [except OSError] against the
    bare [except]. *)
Inductive exn := OSError | AttributeError | OtherError.

(** How a call ends. *)
Inductive outcome (A : Type) :=
| Return (a : A)
| Raise (e : exn).
Arguments Return {A} a.
Arguments Raise {A} e.

(** [SimpleProcess(cmd, cwd, root_password)]; [cwd = None] leaves the
    constructor's default. *)
Record SimpleProcess := {
  cmd : list string;
  proc_cwd : option string;
  proc_root_password : option string
}.

(** The one kind of thread the downloader starts:
    [Thread(target=self._concat_file_size, args=(file_url, msg, watcher))],
    with the text [msg] holds when the thread is started. *)
Inductive thread :=
| ConcatFileSize (file_url : string) (base_substatus : string).

(** What a call does that can be seen from outside, in the order it does it. *)
Inductive event :=
| EvLogInfo (msg : string)                      (* logger.info *)
| EvLogError (msg : string)                     (* logger.error *)
| EvLogTook (file_name : string) (ti tf : Z)    (* the "download took" info line *)
| EvTraceback (e : exn)                         (* traceback.print_exc *)
| EvPrint (msg : string)                        (* watcher.print, by [download] *)
| EvSubstatus (msg : string)                    (* watcher.change_substatus *)
| EvOsRemove (path : string) (r : option exn)   (* os.remove; None: removed *)
| EvMkdir (path : string) (r : option exn)      (* Path.mkdir; None: made *)
| EvNewProcess (p : SimpleProcess) (r : option exn)
| EvOutput (p : SimpleProcess) (lines : list string)
    (* the process handler, running [p]: its watcher.print of each of
       [lines], one after the other *)
| EvHandle (p : SimpleProcess) (r : outcome (bool * string))
| EvThreadStart (t : thread).

(** The paths that exist ([os.path.exists]) and the events so far, oldest
    first. *)
Record World := {
  fs : gset string;
  trace : list event
}.

(** The start of a call: nothing has been observed yet. *)
Definition start (files : gset string) : World :=
  {| fs := files; trace := [] |}.

(** What the process handler prints to its watcher while it runs [p]: the
    command line, then the lines of output of the process; nothing when the
    handler has no watcher. *)
Definition newline : string := String (ascii_of_nat 10) EmptyString.

Definition command_line (p : SimpleProcess) : string :=
  Py.join " " (cmd p) ++ newline.

Definition handler_prints (handler : bool) (p : SimpleProcess)
    (lines : list string) : list event :=
  if handler then [EvOutput p (command_line p :: lines)] else [].

Definition emit (e : event) (w : World) : World :=
  {| fs := fs w; trace := trace w ++ [e] |}.

(** Everything outside the downloader.  The operating system, the process
    handler and the HTTP client answer as they like, and may answer
    differently each time: they are functions of all that has happened.
    The remaining fields are the pure helpers of other modules. *)
Record Env := {
  host : Host;
  interp : Interp;
  (* os.remove(path): [Some e] when it raises *)
  remove_error : World -> string -> option exn;
  (* Path(dir).mkdir(exist_ok=True, parents=True): [Some e] when it raises *)
  mkdir_error : World -> string -> option exn;
  (* time.time() *)
  clock : World -> Z;
  (* SimpleProcess(...): [Some e] when the constructor raises *)
  process_error : World -> SimpleProcess -> option exn;
  (* ProcessHandler.handle_simple(process): what it returns or raises, and
     the files that exist afterwards *)
  process_run : World -> SimpleProcess -> outcome (bool * string) * gset string;
  (* the lines of output of the process that the handler passes on to its
     watcher while it runs the process *)
  process_prints : World -> SimpleProcess -> list string;
  (* HttpClient.get_content_length(url) *)
  content_length : World -> string -> outcome (option string);
  (* I18n.__getitem__ *)
  i18n : string -> string;
  (* template.format(dir=...) *)
  format_dir : string -> string -> string;
  (* bauh.commons.html.bold *)
  bold : string -> string;
  (* bauh.commons.view_utils.get_human_size_str *)
  get_human_size_str : Z -> string;
  (* RE_HAS_EXTENSION.match(s) is not None *)
  has_extension : string -> bool
}.

(** [os.path.dirname] (posixpath). *)
Definition os_path_dirname (p : string) : string :=
  let parts := Py.split "/" p in
  match Py.but_last parts with
  | [] => EmptyString
  | init =>
      let head := Py.join "/" init ++ "/" in
      if String.eqb (Py.rstrip_slash head) EmptyString then head
      else Py.rstrip_slash head
  end.

(** * Computations: state and exceptions *)

Definition M (A : Type) : Type := World -> outcome A * World.

Definition ret {A} (a : A) : M A := fun w => (Return a, w).

Definition raise {A} (e : exn) : M A := fun w => (Raise e, w).

Definition bind {A B} (m : M A) (k : A -> M B) : M B :=
  fun w =>
    match m w with
    | (Return a, w') => k a w'
    | (Raise e, w') => (Raise e, w')
    end.

(** [try: m] with the way it ended handed to what follows. *)
Definition attempt {A} (m : M A) : M (outcome A) :=
  fun w => let '(r, w') := m w in (Return r, w').

Declare Scope py_scope.
Delimit Scope py_scope with py.
Notation "'let*' x ':=' m 'in' k" := (bind m (fun x => k))
  (at level 10, x name, m at level 100, k at level 200) : py_scope.
Notation "m '>>' k" := (bind m (fun _ => k))
  (at level 90, right associativity) : py_scope.
Open Scope py_scope.

Definition say (e : event) : M unit := fun w => (Return tt, emit e w).

Definition log_info (msg : string) : M unit := say (EvLogInfo msg).
Definition log_error (msg : string) : M unit := say (EvLogError msg).

(** Calling a method of [watcher]: an [AttributeError] when it is [None]. *)
Definition watcher_print (watcher : bool) (msg : string) : M unit :=
  if watcher then say (EvPrint msg) else raise AttributeError.

Definition watcher_change_substatus (watcher : bool) (msg : string) : M unit :=
  if watcher then say (EvSubstatus msg) else raise AttributeError.

Definition os_path_exists (p : string) : M bool :=
  fun w => (Return (bool_decide (p ∈ fs w)), w).

(** The arguments of a [download] call.  [watcher] tells whether a watcher
    object was passed ([true]) or [None]. *)
Record DownloadRequest := {
  file_url : string;
  watcher : bool;
  output_path : option string;
  cwd : option string;
  root_password : option string;
  substatus_prefix : option string;
  display_file_size : bool;
  max_threads : option Z;
  known_size : option Z
}.

Section Download.

Variable E : Env.
Variable self : Downloader.

Definition time_time : M Z := fun w => (Return (clock E w), w).

Definition os_remove (p : string) : M unit :=
  fun w =>
    match remove_error E w p with
    | None =>
        (Return tt, {| fs := fs w ∖ {[p]};
                       trace := trace w ++ [EvOsRemove p None] |})
    | Some e => (Raise e, emit (EvOsRemove p (Some e)) w)
    end.

(** Only the directory itself is recorded as made; a failed [mkdir] leaves
    the recorded paths as they were. *)
Definition path_mkdir (dir : string) : M unit :=
  fun w =>
    match mkdir_error E w dir with
    | None =>
        (Return tt, {| fs := fs w ∪ {[dir]};
                       trace := trace w ++ [EvMkdir dir None] |})
    | Some e => (Raise e, emit (EvMkdir dir (Some e)) w)
    end.

Definition new_SimpleProcess (c : list string) (dir : option string)
    (password : option string) : M SimpleProcess :=
  fun w =>
    let p := {| cmd := c; proc_cwd := dir; proc_root_password := password |} in
    match process_error E w p with
    | None => (Return p, emit (EvNewProcess p None) w)
    | Some e => (Raise e, emit (EvNewProcess p (Some e)) w)
    end.

(** [handler.handle_simple(p)], for the [ProcessHandler(watcher)] of line
    135: [handler] tells whether that watcher is there.  While it runs the
    process the handler prints to its watcher, when it has one. *)
Definition handle_simple (handler : bool) (p : SimpleProcess)
  : M (bool * string) :=
  fun w =>
    let '(r, files) := process_run E w p in
    (r, {| fs := files;
           trace := trace w ++ handler_prints handler p (process_prints E w p)
                            ++ [EvHandle p r] |}).

Definition http_get_content_length (url : string) : M (option string) :=
  fun w => (content_length E w url, w).

Definition thread_start (t : thread) : M unit := say (EvThreadStart t).

(** The command line [_get_aria2c_process] builds. *)
Definition aria2c_command (url : string) (out : option string) (threads : Z)
  : list string :=
  let c := ["aria2c"; url;
            "--no-conf";
            "-x"; "16";
            "--enable-color=false";
            "--stderr=true";
            "--summary-interval=0";
            "--disable-ipv6";
            "-k"; "1M";
            "--allow-overwrite=true";
            "-c";
            "-t"; "5";
            "--max-file-not-found=3";
            "--file-allocation=none";
            "--console-log-level=error"] in
  let c := if Z.ltb 1 threads then (c ++ ["-s"; Py.str_of_int threads])%list else c in
  if Py.truthy_str out then
    let output_split := Py.split "/" (Py.the_str out) in
    (c ++ ["-d"; Py.join "/" (Py.but_last output_split);
           "-o"; Py.last_item output_split])%list
  else c.

Definition _get_aria2c_process (url : string) (out : option string)
    (dir : string) (password : option string) (threads : Z)
  : M SimpleProcess :=
  new_SimpleProcess (aria2c_command url out threads) (Some dir) password.

(** The command line [_get_axel_process] builds. *)
Definition axel_command (url : string) (out : option string) (threads : Z)
  : list string :=
  let c := ["axel"; url; "-n"; Py.str_of_int threads; "-4"; "-c"; "-T"; "5"] in
  let c := if negb (check_ssl self) then (c ++ ["-k"])%list else c in
  if Py.truthy_str out
  then (c ++ [("--output=" ++ Py.the_str out)%string])%list else c.

Definition _get_axel_process (url : string) (out : option string)
    (dir : string) (password : option string) (threads : Z)
  : M SimpleProcess :=
  new_SimpleProcess (axel_command url out threads) (Some dir) password.

(** The command line [_get_wget_process] builds. *)
Definition wget_command (url : string) (out : option string) : list string :=
  let c := ["wget"; url; "-c"; "--retry-connrefused"; "-t"; "10";
            "--no-config"; "-nc"] in
  let c := if negb (check_ssl self) then (c ++ ["--no-check-certificate"])%list else c in
  if Py.truthy_str out then (c ++ ["-O"; Py.the_str out])%list else c.

Definition _get_wget_process (url : string) (out : option string)
    (dir : string) (password : option string) : M SimpleProcess :=
  new_SimpleProcess (wget_command url out) (Some dir) password.

(** The file a failed download may have left. *)
Definition to_delete (file_name : string) (out : option string)
    (dir : string) : string :=
  if Py.truthy_str out then Py.the_str out else dir ++ "/" ++ file_name.

(** The command [_rm_bad_file] runs. *)
Definition rm_command (target : string) : list string := ["rm"; "-rf"; target].

(** [_rm_bad_file]: [None] when there was nothing to remove. *)
Definition _rm_bad_file (file_name : string) (out : option string)
    (dir : string) (handler : bool) (password : option string)
  : M (option bool) :=
  let target := to_delete file_name out dir in
  let* there :=
    (if Py.truthy_str (Some target) then os_path_exists target else ret false) in
  if there then
    log_info ("Removing downloaded file " ++ target) >>
    let* p := new_SimpleProcess (rm_command target) None password in
    let* r := handle_simple handler p in
    ret (Some (fst r))
  else ret None.

(** [_concat_file_size], the body of the thread. *)
Definition _concat_file_size (url : string) (base_substatus : string)
    (watcher : bool) : M unit :=
  watcher_change_substatus watcher (base_substatus ++ " ( ? Mb )") >>
  let* r := attempt (
    let* size := http_get_content_length url in
    if Py.truthy_str size then
      let base_substatus := base_substatus ++ " ( " ++ Py.the_str size ++ " )" in
      watcher_change_substatus watcher base_substatus
    else ret tt) in
  (* except: pass *)
  ret tt.

(** Lines 143 to 156 of [download], the start of its [try] block.
    [Some b] stands for [return b]; [None] goes on to the next line. *)
Definition prepare_output (req : DownloadRequest) : M (option bool) :=
  if Py.truthy_str (output_path req) then
    let out := Py.the_str (output_path req) in
    let* there := os_path_exists out in
    if there then
      log_info ("Removing old file found before downloading: " ++ out) >>
      os_remove out >>
      log_info ("Old file " ++ out ++ " removed") >>
      ret None
    else
      let output_dir := os_path_dirname out in
      let* r := attempt (path_mkdir output_dir) in
      match r with
      | Return _ => ret None
      | Raise OSError =>
          log_error ("Could not make download directory '" ++ output_dir ++ "'") >>
          watcher_print (watcher req) (format_dir E (i18n E "error.mkdir") output_dir) >>
          ret (Some false)
      | Raise e => raise e
      end
  else ret None.

(** The text shown while downloading, before any size. *)
Definition substatus_text (req : DownloadRequest) (downloader name : string)
  : string :=
  (if Py.truthy_str (substatus_prefix req)
   then Py.the_str (substatus_prefix req) ++ " " else EmptyString)
  ++ bold E ("[" ++ downloader ++ "]") ++ " " ++ i18n E "downloading"
  ++ " " ++ bold E name.

(** Lines 162 to 195 of [download], the rest of its [try] block, from the
    point where [ti] has been read again: build the process, tell the
    watcher, run the process.  Returns [success]. *)
Definition launch (req : DownloadRequest) (client : option string)
    (final_cwd : string) : M bool :=
  let* built :=
    (if Py.truthy_str client then
       let threads :=
         _get_appropriate_threads_number (max_threads req) (known_size req) in
       if String.eqb (Py.the_str client) "aria2" then
         let* process := _get_aria2c_process (file_url req) (output_path req)
                           final_cwd (root_password req) threads in
         ret (process, "aria2")
       else
         let* process := _get_axel_process (file_url req) (output_path req)
                           final_cwd (root_password req) threads in
         ret (process, "axel")
     else
       let* process := _get_wget_process (file_url req) (output_path req)
                         final_cwd (root_password req) in
       ret (process, "wget")) in
  let process := fst built in
  let downloader := snd built in
  let name := Py.last_item (Py.split "/" (file_url req)) in
  let name :=
    if Py.truthy_str (output_path req) && negb (has_extension E name)
       && has_extension E (Py.the_str (output_path req))
    then Py.last_item (Py.split "/" (Py.the_str (output_path req)))
    else name in
  (if watcher req then
     let msg := substatus_text req downloader name in
     if display_file_size req then
       if Py.truthy_int (known_size req) then
         let msg := msg ++ " ( " ++ get_human_size_str E (default 0 (known_size req)) ++ " )" in
         watcher_change_substatus (watcher req) msg
       else thread_start (ConcatFileSize (file_url req) msg)
     else
       let msg := msg ++ " ( ? Mb )" in
       watcher_change_substatus (watcher req) msg
   else ret tt) >>
  let* r := handle_simple (watcher req) process in
  ret (fst r).

(** The [except:] clause of [download]. *)
Definition on_exception (e : exn) (req : DownloadRequest)
    (file_name final_cwd : string) : M unit :=
  say (EvTraceback e) >>
  _rm_bad_file file_name (output_path req) final_cwd (watcher req)
    (root_password req) >>
  ret tt.

(** Lines 200 to 207 of [download], after the [try] statement. *)
Definition finish (req : DownloadRequest) (file_name final_cwd : string)
    (ti : Z) (success : bool) : M bool :=
  let* tf := time_time in
  say (EvLogTook file_name ti tf) >>
  (if negb success then
     log_error ("Could not download '" ++ file_name ++ "'") >>
     _rm_bad_file file_name (output_path req) final_cwd (watcher req)
       (root_password req) >>
     ret tt
   else ret tt) >>
  ret success.

(** [download].  The [try] block is taken in two parts, split where [ti]
    is assigned again, so that the code after an exception sees the [ti]
    that was current when it was raised; [success] is still [False] on
    every exception, its assignment being the block's last statement. *)
Definition download (req : DownloadRequest) : M bool :=
  log_info ("Downloading " ++ file_url req) >>
  let file_name := Py.last_item (Py.split "/" (file_url req)) in
  let final_cwd := if Py.truthy_str (cwd req) then Py.the_str (cwd req) else "." in
  let* ti := time_time in
  let* prepared := attempt (prepare_output req) in
  match prepared with
  | Return (Some b) => ret b
  | Return None =>
      let client := get_available_multithreaded_tool (interp E) (host E) self in
      let* ti := time_time in
      let* launched := attempt (launch req client final_cwd) in
      match launched with
      | Return success => finish req file_name final_cwd ti success
      | Raise e =>
          on_exception e req file_name final_cwd >>
          finish req file_name final_cwd ti false
      end
  | Raise e =>
      on_exception e req file_name final_cwd >>
      finish req file_name final_cwd ti false
  end.

End Download.

(** A started thread runs its body on its own; what it raises ends the
    thread and reaches nobody. *)
Definition run_thread (E : Env) (t : thread) (w : World) : World :=
  match t with
  | ConcatFileSize url base => snd (_concat_file_size E url base true w)
  end.

(** * Fixtures for concrete runs *)

(** A host on which exactly the named tools are installed. *)
Definition host_with (aria2c axel wget : bool) : Host :=
  {| which := fun exe =>
       if String.eqb exe "aria2c" then (if aria2c then Some "/usr/bin/aria2c" else None)
       else if String.eqb exe "axel" then (if axel then Some "/usr/bin/axel" else None)
       else if String.eqb exe "wget" then (if wget then Some "/usr/bin/wget" else None)
       else None |}.

(** An interpreter that walks a set in the order of [elements]. *)
Definition an_interp : Interp :=
  {| set_iter := elements; set_iter_perm := fun X => reflexivity _ |}.

(** ** Statements that are put to the test *)

(** [can_work] as a test of installed tools alone: true exactly when wget,
    aria2 or axel is on the host. *)
Definition can_work_by_tools_alone (I : Interp) (h : Host) (self : Downloader)
  : Prop :=
  can_work I h self = true
  <-> is_wget_available h = true
      \/ is_aria2c_available h = true \/ is_axel_available h = true.

(** No max-threads override that counts: none given, or one that is not
    positive. *)
Definition no_positive_override (max_threads : option Z) : Prop :=
  match max_threads with
  | Some n => n <= 0
  | None => True
  end.

(** Two hosts on which the same multi-connection tools are available. *)
Definition same_availability (h1 h2 : Host) : Prop :=
  is_aria2c_available h1 = is_aria2c_available h2
  /\ is_axel_available h1 = is_axel_available h2.

(** An interpreter that walks a set the other way round. *)
Definition another_interp : Interp :=
  {| set_iter := fun X => reverse (elements X);
     set_iter_perm := fun X => reverse_Permutation (elements X) |}.

(** An environment in which nothing goes wrong: every system call works,
    every process reports success and changes no file, the server gives no
    content length.  The clock counts events. *)
Definition calm (h : Host) : Env :=
  {| host := h;
     interp := an_interp;
     remove_error := fun _ _ => None;
     mkdir_error := fun _ _ => None;
     clock := fun w => Z.of_nat (length (trace w));
     process_error := fun _ _ => None;
     process_run := fun w _ => (Return (true, EmptyString), fs w);
     process_prints := fun _ _ => [];
     content_length := fun _ _ => Return None;
     i18n := fun key => key;
     format_dir := fun template dir => template ++ " " ++ dir;
     bold := fun text => "<b>" ++ text ++ "</b>";
     get_human_size_str := fun n => Py.str_of_int n ++ " B";
     has_extension := fun _ => true |}.

(** [E] with other answers from the operating system and the processes. *)
Definition with_faults (E : Env)
    (rm_err mk_err : World -> string -> option exn)
    (p_err : World -> SimpleProcess -> option exn)
    (p_run : World -> SimpleProcess -> outcome (bool * string) * gset string)
  : Env :=
  {| host := host E;
     interp := interp E;
     remove_error := rm_err;
     mkdir_error := mk_err;
     clock := clock E;
     process_error := p_err;
     process_run := p_run;
     process_prints := process_prints E;
     content_length := content_length E;
     i18n := i18n E;
     format_dir := format_dir E;
     bold := bold E;
     get_human_size_str := get_human_size_str E;
     has_extension := has_extension E |}.

(** [E] with another answer to the content-length request. *)
Definition with_content_length (E : Env)
    (probe : World -> string -> outcome (option string)) : Env :=
  {| host := host E;
     interp := interp E;
     remove_error := remove_error E;
     mkdir_error := mkdir_error E;
     clock := clock E;
     process_error := process_error E;
     process_run := process_run E;
     process_prints := process_prints E;
     content_length := probe;
     i18n := i18n E;
     format_dir := format_dir E;
     bold := bold E;
     get_human_size_str := get_human_size_str E;
     has_extension := has_extension E |}.

Definition a_downloader : Downloader :=
  {| multithread_enabled := true; multithread_client := None;
     check_ssl := true |}.

(** A request for [url] into [out], with a watcher and nothing else set. *)
Definition request (url : string) (out : option string) : DownloadRequest :=
  {| file_url := url;
     watcher := true;
     output_path := out;
     cwd := None;
     root_password := None;
     substatus_prefix := None;
     display_file_size := true;
     max_threads := None;
     known_size := None |}.

(** ** Reading a trace *)

(** The events in which a process is made or run. *)
Definition is_process_event (e : event) : bool :=
  match e with
  | EvNewProcess _ _ | EvHandle _ _ => true
  | _ => false
  end.

Definition no_process (evs : list event) : Prop :=
  Forall (fun e => is_process_event e = false) evs.

(** The process an event is about, if any. *)
Definition process_of (e : event) : option SimpleProcess :=
  match e with
  | EvNewProcess p _ | EvHandle p _ => Some p
  | _ => None
  end.

(** The world in which the [try] block of [download] starts. *)
Definition at_try (req : DownloadRequest) (files : gset string) : World :=
  emit (EvLogInfo ("Downloading " ++ file_url req)) (start files).

(** The file a failed download of [req] may have left. *)
Definition artifact (req : DownloadRequest) : string :=
  to_delete (Py.last_item (Py.split "/" (file_url req))) (output_path req)
    (if Py.truthy_str (cwd req) then Py.the_str (cwd req) else ".").

(** ** Reasoning about a run *)

(** [wp m Q w]: running [m] in [w] ends in a way and in a world that
    satisfy [Q]. *)
Definition wp {A} (m : M A) (Q : outcome A -> World -> Prop) (w : World)
  : Prop :=
  Q (fst (m w)) (snd (m w)).

(** ** What a failed download leaves *)

(** The backend process reported success: some process other than the
    clean-up of [req] was run and returned [True]. *)
Definition backend_succeeded (req : DownloadRequest) (evs : list event) : Prop :=
  exists p out,
    EvHandle p (Return (true, out)) ∈ evs /\ cmd p <> rm_command (artifact req).

(** The clean-up of [req] was run, whatever came of it. *)
Definition cleanup_run (req : DownloadRequest) (evs : list event) : Prop :=
  exists p r, EvHandle p r ∈ evs /\ cmd p = rm_command (artifact req).

(** Nothing is left of a failed download, as far as the call could help it:
    its file is not there, or [rm -rf] was run on it. *)
Definition cleaned_up (req : DownloadRequest) (w : World) : Prop :=
  artifact req ∉ fs w \/ cleanup_run req (trace w).

(** Making or running the clean-up process raised [e]. *)
Definition cleanup_raised (req : DownloadRequest) (e : exn) (evs : list event)
  : Prop :=
  exists p,
    cmd p = rm_command (artifact req)
    /\ (EvNewProcess p (Some e) ∈ evs \/ EvHandle p (Raise e) ∈ evs).

(** C4 as stated: a call that does not succeed returns false, having cleaned
    up. *)
Definition fails_cleanly (E : Env) (self : Downloader) (req : DownloadRequest)
    (files : gset string) : Prop :=
  let run := download E self req (start files) in
  fst run = Return true
  \/ (fst run = Return false /\ cleaned_up req (snd run)).

(** An environment in which no process can be started. *)
Definition no_spawn (h : Host) : Env :=
  with_faults (calm h)
    (fun _ _ => None) (fun _ _ => None)
    (fun _ _ => Some OSError) (fun w _ => (Return (true, EmptyString), fs w)).

(** What [launch] may tell the watcher between making the process and
    running it: nothing, a new substatus, or it starts the thread that asks
    for the size. *)
Inductive telling : list event -> Prop :=
| tell_nothing : telling []
| tell_substatus msg : telling [EvSubstatus msg]
| tell_thread t : telling [EvThreadStart t].

(** The way [handle_simple] ended, as [success] of [download] sees it. *)
Definition success_of (r : outcome (bool * string)) : outcome bool :=
  match r with
  | Return x => Return (fst x)
  | Raise e => Raise e
  end.

(** The same, as the result of [_rm_bad_file]. *)
Definition removed_of (r : outcome (bool * string)) : outcome (option bool) :=
  match r with
  | Return x => Return (Some (fst x))
  | Raise e => Raise e
  end.

(** A command line of one of the three download tools. *)
Definition backend_command (c : list string) : Prop :=
  exists tool rest, c = tool :: rest /\ tool ∈ ["aria2c"; "axel"; "wget"].

(** ** The log of the time taken *)

(** The "download took" line was logged, whatever the times in it. *)
Definition took_logged (req : DownloadRequest) (evs : list event) : Prop :=
  exists ti tf,
    EvLogTook (Py.last_item (Py.split "/" (file_url req))) ti tf ∈ evs.

(** C6 as stated: whenever the call returns, the time it took has been
    logged. *)
Definition elapsed_always_logged (E : Env) (self : Downloader)
    (req : DownloadRequest) (files : gset string) : Prop :=
  let run := download E self req (start files) in
  forall b, fst run = Return b -> took_logged req (trace (snd run)).

(** An environment in which no directory can be made. *)
Definition no_mkdir (h : Host) : Env :=
  with_faults (calm h)
    (fun _ _ => None) (fun _ _ => Some OSError)
    (fun _ _ => None) (fun w _ => (Return (true, EmptyString), fs w)).

(** ** The stale file *)

(** [os.remove] took [out] away before any process was made or run. *)
Definition removed_before_processes (out : string) (evs : list event) : Prop :=
  exists pre post,
    evs = (pre ++ EvOsRemove out None :: post)%list /\ no_process pre.

(** C8 as stated, for a request whose output file is there. *)
Definition stale_file_removed_first (E : Env) (self : Downloader)
    (req : DownloadRequest) (files : gset string) : Prop :=
  removed_before_processes (Py.the_str (output_path req))
    (trace (snd (download E self req (start files)))).

(** An environment in which [os.remove] is not permitted. *)
Definition no_remove (h : Host) : Env :=
  with_faults (calm h)
    (fun _ _ => Some OSError) (fun _ _ => None)
    (fun _ _ => None) (fun w _ => (Return (true, EmptyString), fs w)).

(** ** The size request *)

(** The request for the content length came to nothing: it raised, or gave
    no size. *)
Definition probe_failed (r : outcome (option string)) : Prop :=
  match r with
  | Raise _ => True
  | Return size => Py.truthy_str size = false
  end.

(** The text shown before the size is known. *)
Definition placeholder_text (base_substatus : string) : string :=
  base_substatus ++ " ( ? Mb )".

(** The thread shows the watcher a text with [placeholder] in it. *)
Definition shows_placeholder (placeholder : string) (E : Env)
    (url base_substatus : string) (w : World) : Prop :=
  exists msg,
    EvSubstatus msg ∈ trace (snd (_concat_file_size E url base_substatus true w))
    /\ Py.contains placeholder msg = true.


(** ** More ways to read a run *)

(** The working directory a call uses: [cwd if cwd else '.']. *)
Definition final_cwd_of (req : DownloadRequest) : string :=
  if Py.truthy_str (cwd req) then Py.the_str (cwd req) else ".".

(** The command line of the tool a call downloads with, told from the
    downloader's own answers: wget unless [is_multithreaded], else aria2c
    or axel as [get_available_multithreaded_tool] says, with the threads of
    [_get_appropriate_threads_number]. *)
Definition download_command (E : Env) (self : Downloader)
    (req : DownloadRequest) : list string :=
  let threads :=
    _get_appropriate_threads_number (max_threads req) (known_size req) in
  if is_multithreaded (interp E) (host E) self then
    if bool_decide (get_available_multithreaded_tool (interp E) (host E) self
                    = Some "aria2")
    then aria2c_command (file_url req) (output_path req) threads
    else axel_command self (file_url req) (output_path req) threads
  else wget_command self (file_url req) (output_path req).

(** What [launch] tells the watcher between making its process and running
    it, and on what terms. *)
Inductive tells (req : DownloadRequest) : list event -> Prop :=
| tells_no_watcher :
    watcher req = false -> tells req []
| tells_size msg :
    watcher req = true -> display_file_size req = true ->
    Py.truthy_int (known_size req) = true ->
    tells req [EvSubstatus msg]
| tells_no_size msg :
    watcher req = true -> display_file_size req = false ->
    tells req [EvSubstatus msg]
| tells_thread msg :
    watcher req = true -> display_file_size req = true ->
    Py.truthy_int (known_size req) = false ->
    tells req [EvThreadStart (ConcatFileSize (file_url req) msg)].

(** What the watcher hears from the process handler while it runs [p]:
    nothing if the handler has no watcher, else the command line and the
    lines of output. *)
Inductive hears (handler : bool) (p : SimpleProcess) : list event -> Prop :=
| hears_nothing :
    handler = false -> hears handler p []
| hears_lines lines :
    handler = true -> hears handler p [EvOutput p (command_line p :: lines)].

(** The calls that change the file system directly. *)
Definition is_fs_call (e : event) : bool :=
  match e with
  | EvOsRemove _ _ | EvMkdir _ _ => true
  | _ => false
  end.

(** The signs of trouble: a traceback, an error line, a message that
    [download] itself prints to the watcher (it has one only, that the
    directory could not be made).  What the process handler prints, the
    command line and the output of the process, is no such sign. *)
Definition is_trouble (e : event) : bool :=
  match e with
  | EvTraceback _ | EvLogError _ | EvPrint _ => true
  | _ => false
  end.

(** What reaches the watcher: what [download] prints or shows, what its
    process handler prints, and the thread started for it. *)
Definition is_watcher_event (e : event) : bool :=
  match e with
  | EvPrint _ | EvSubstatus _ | EvThreadStart _ | EvOutput _ _ => true
  | _ => false
  end.

Definition is_handle (e : event) : bool :=
  match e with
  | EvHandle _ _ => true
  | _ => false
  end.

Definition is_thread_start (e : event) : bool :=
  match e with
  | EvThreadStart _ => true
  | _ => false
  end.

(** A process of one of the download tools was run. *)
Definition is_backend_run (e : event) : bool :=
  match e with
  | EvHandle p _ =>
      match cmd p with
      | tool :: _ => bool_decide (tool ∈ ["aria2c"; "axel"; "wget"])
      | [] => false
      end
  | _ => false
  end.

(** How many events of a kind a trace has. *)
Fixpoint count (kind : event -> bool) (evs : list event) : nat :=
  match evs with
  | [] => 0
  | e :: rest => (if kind e then 1 else 0) + count kind rest
  end.

(** The process a call downloads with. *)
Definition download_process (E : Env) (self : Downloader)
    (req : DownloadRequest) : SimpleProcess :=
  {| cmd := download_command E self req;
     proc_cwd := Some (final_cwd_of req);
     proc_root_password := root_password req |}.

(** The process a call cleans up with. *)
Definition cleanup_process (req : DownloadRequest) : SimpleProcess :=
  {| cmd := rm_command (artifact req);
     proc_cwd := None;
     proc_root_password := root_password req |}.

(** ** The time that is logged *)

(** The return of line 156: there is an output path, no file at it, making
    its directory raises [OSError], and there is a watcher to tell. *)
Definition mkdir_return (E : Env) (req : DownloadRequest)
    (files : gset string) : Prop :=
  Py.truthy_str (output_path req) = true
  /\ (Py.the_str (output_path req) ∉ files)
  /\ mkdir_error E (at_try req files)
       (os_path_dirname (Py.the_str (output_path req))) = Some OSError
  /\ watcher req = true.

(** Where the clock was last read into [ti]: at line 141, or again on
    line 163, 167 or 171, if lines 143 to 156 came to their end without
    an exception. *)
Definition last_reading (E : Env) (req : DownloadRequest)
    (files : gset string) : World :=
  let w0 := at_try req files in
  match fst (prepare_output E req w0) with
  | Return None => snd (prepare_output E req w0)
  | _ => w0
  end.

(** Where line 200 reads the clock into [tf]: after the [try] statement,
    its [except] clause included if an exception was raised. *)
Definition after_try (E : Env) (self : Downloader) (req : DownloadRequest)
    (files : gset string) : World :=
  let file_name := Py.last_item (Py.split "/" (file_url req)) in
  let final_cwd := final_cwd_of req in
  let w0 := at_try req files in
  let w1 := snd (prepare_output E req w0) in
  match fst (prepare_output E req w0) with
  | Return (Some _) => w1
  | Return None =>
      let client := get_available_multithreaded_tool (interp E) (host E) self in
      let w2 := snd (launch E self req client final_cwd w1) in
      match fst (launch E self req client final_cwd w1) with
      | Return _ => w2
      | Raise e => snd (on_exception E e req file_name final_cwd w2)
      end
  | Raise e => snd (on_exception E e req file_name final_cwd w1)
  end.

(** The time was logged as lines 200 and 201 do it: the "download took"
    line, with the last reading of [ti] and the reading of [tf] made after
    the [try] statement, comes right after what had happened until then. *)
Definition elapsed_logged (E : Env) (self : Downloader)
    (req : DownloadRequest) (files : gset string) (evs : list event) : Prop :=
  exists post,
    evs = (trace (after_try E self req files)
           ++ EvLogTook (Py.last_item (Py.split "/" (file_url req)))
                (clock E (last_reading E req files))
                (clock E (after_try E self req files))
              :: post)%list.
(** * Tool selection *)

Section ToolFacts.

Variable I : Interp.
Variable h : Host.

Lemma set_iter_singleton (x : string) : set_iter I {[x]} = [x].
Proof.
  pose proof (set_iter_perm I {[x]}) as Hp.
  rewrite elements_singleton in Hp.
  by apply Permutation_singleton_r in Hp.
Qed.

Lemma without_aria2 :
  (list_to_set supported_multithread_clients : gset string) ∖ {["aria2"]}
  = {["axel"]}.
Proof. unfold supported_multithread_clients. set_solver. Qed.

Lemma without_axel :
  (list_to_set supported_multithread_clients : gset string) ∖ {["axel"]}
  = {["aria2"]}.
Proof. unfold supported_multithread_clients. set_solver. Qed.

Lemma supported_cases (c : string) :
  c ∈ supported_multithread_clients -> c = "aria2" \/ c = "axel".
Proof.
  unfold supported_multithread_clients. intros Hc.
  apply elem_of_cons in Hc as [-> | Hc]; [by left|].
  apply elem_of_cons in Hc as [-> | Hc]; [by right|].
  by apply elem_of_nil in Hc.
Qed.

Lemma first_available_supported :
  first_available h supported_multithread_clients
  = if is_aria2c_available h then Some "aria2"
    else if is_axel_available h then Some "axel" else None.
Proof. reflexivity. Qed.

(** What the method returns, case by case: a preference for axel puts
    axel first, anything else leaves aria2 first. *)
Lemma get_available_multithreaded_tool_cases (self : Downloader) :
  get_available_multithreaded_tool I h self
  = if multithread_enabled self then
      if bool_decide (multithread_client self = Some "axel") then
        if is_axel_available h then Some "axel"
        else if is_aria2c_available h then Some "aria2" else None
      else
        if is_aria2c_available h then Some "aria2"
        else if is_axel_available h then Some "axel" else None
    else None.
Proof.
  unfold get_available_multithreaded_tool.
  destruct (multithread_enabled self); [|done].
  destruct (multithread_client self) as [c|]; [|done].
  case_bool_decide as Hc.
  - destruct (supported_cases c Hc) as [-> | ->].
    + rewrite without_aria2, set_iter_singleton.
      rewrite bool_decide_eq_false_2 by done.
      unfold is_multithreaded_client_available; cbn.
      by destruct (is_aria2c_available h).
    + rewrite without_axel, set_iter_singleton.
      rewrite bool_decide_eq_true_2 by done.
      unfold is_multithreaded_client_available; cbn.
      by destruct (is_axel_available h).
  - rewrite first_available_supported.
    rewrite bool_decide_eq_false_2; [done|].
    intros [= ->]. apply Hc.
    unfold supported_multithread_clients. apply elem_of_cons. right.
    apply elem_of_cons. by left.
Qed.

Lemma is_multithreaded_enabled (self : Downloader) :
  is_multithreaded I h self
  = multithread_enabled self && (is_aria2c_available h || is_axel_available h).
Proof.
  unfold is_multithreaded. rewrite get_available_multithreaded_tool_cases.
  destruct (multithread_enabled self); [|done].
  by case_bool_decide;
    destruct (is_aria2c_available h), (is_axel_available h).
Qed.

Lemma detected_available (c : string) :
  Policy.detected h c = is_multithreaded_client_available h c.
Proof.
  unfold Policy.detected, Policy.executable, is_multithreaded_client_available.
  destruct (String.eqb c "aria2"); [done|].
  by destruct (String.eqb c "axel").
Qed.

Lemma scan_first_available (cs : list string) :
  Policy.scan h cs = first_available h cs.
Proof.
  unfold Policy.scan.
  induction cs as [|c cs IH]; [done|]. cbn.
  rewrite detected_available, IH. done.
Qed.

Lemma recognized_supported (c : string) :
  Policy.recognized c = bool_decide (c ∈ supported_multithread_clients).
Proof.
  unfold Policy.recognized, Policy.catalog. cbn.
  case_bool_decide as Hc.
  - by destruct (supported_cases c Hc) as [-> | ->].
  - destruct (String.eqb_spec c "aria2") as [-> | _].
    { exfalso. apply Hc. apply elem_of_cons. by left. }
    destruct (String.eqb_spec c "axel") as [-> | _]; [|done].
    exfalso. apply Hc. apply elem_of_cons. right. apply elem_of_cons. by left.
Qed.

End ToolFacts.

(** C3. The tool [get_available_multithreaded_tool] returns is the one the
    specified policy resolves: none when multi-threading is disabled;
    without a recognized preference the first available backend in the
    order aria2, axel; a recognized and available preference itself; and
    for a recognized but unavailable preference the first available of the
    remaining candidates, in their order. *)
Theorem get_available_multithreaded_tool_is_policy
    (I : Interp) (h : Host) (self : Downloader) :
  get_available_multithreaded_tool I h self
  = Policy.resolve h (multithread_client self) (multithread_enabled self).
Proof.
  unfold Policy.resolve.
  rewrite get_available_multithreaded_tool_cases.
  destruct (multithread_enabled self); [|done].
  destruct (multithread_client self) as [c|].
  - rewrite recognized_supported.
    destruct (decide (c ∈ supported_multithread_clients)) as [Hc | Hc];
      [rewrite (bool_decide_eq_true_2 _ Hc) | rewrite (bool_decide_eq_false_2 _ Hc)].
    + rewrite detected_available, scan_first_available.
      destruct (supported_cases c Hc) as [-> | ->].
      * rewrite bool_decide_eq_false_2 by done.
        unfold is_multithreaded_client_available; cbn.
        by destruct (is_aria2c_available h).
      * rewrite bool_decide_eq_true_2 by done.
        unfold is_multithreaded_client_available; cbn.
        by destruct (is_axel_available h).
    + rewrite scan_first_available, first_available_supported.
      rewrite bool_decide_eq_false_2; [done|].
      intros [= ->]. apply Hc. apply elem_of_cons. right. apply elem_of_cons. by left.
  - by rewrite scan_first_available, first_available_supported.
Qed.

(** C1 as stated fails: with multi-threaded mode disabled, wget missing and
    axel installed, a tool is there and [can_work] is false. *)
Lemma can_work_by_tools_alone_fails :
  ~ can_work_by_tools_alone an_interp (host_with false true false)
      {| multithread_enabled := false; multithread_client := None;
         check_ssl := true |}.
Proof.
  unfold can_work_by_tools_alone. intros [_ Hback].
  assert (Hfalse : can_work an_interp (host_with false true false)
            {| multithread_enabled := false; multithread_client := None;
               check_ssl := true |} = false) by reflexivity.
  rewrite Hback in Hfalse; [discriminate|].
  right. right. reflexivity.
Qed.

(** C1, amended. [can_work] is true exactly when wget is available, or
    multi-threaded mode is enabled and aria2 or axel is available; with the
    mode disabled it is the availability of wget. *)
Theorem can_work_iff (I : Interp) (h : Host) (self : Downloader) :
  can_work I h self = true
  <-> is_wget_available h = true
      \/ (multithread_enabled self = true
          /\ (is_aria2c_available h = true \/ is_axel_available h = true)).
Proof.
  unfold can_work. rewrite is_multithreaded_enabled.
  destruct (is_wget_available h), (multithread_enabled self),
    (is_aria2c_available h), (is_axel_available h); cbn;
    intuition discriminate.
Qed.

(** * Thread count *)

Lemma floor_truediv (a : Z) : Py.floor (Py.truediv a 1000000) = a / 1000000.
Proof.
  unfold Py.floor, Py.truediv, Qfloor, Qdiv, Qmult, Qinv, inject_Z; cbn.
  by rewrite Z.mul_1_r.
Qed.

Lemma threads_by_size (m : option Z) (s : Z) :
  no_positive_override m -> 0 < s ->
  _get_appropriate_threads_number m (Some s)
  = if bool_decide (16000000 <= s) then 16 else Z.max 1 (s / 1000000).
Proof.
  intros Hm Hs. unfold _get_appropriate_threads_number.
  assert (Hsize :
    (if Py.truthy_int (Some s) then
       let threads := if Z.leb 16000000 s then 16
                      else Py.floor (Py.truediv s 1000000) in
       if Z.leb threads 0 then 1 else threads
     else 16)
    = if bool_decide (16000000 <= s) then 16 else Z.max 1 (s / 1000000)).
  { cbn [Py.truthy_int]. destruct (Z.eqb_spec s 0) as [-> | _]; [lia|].
    cbn [negb]. cbv zeta.
    rewrite floor_truediv. case_bool_decide as Hbig.
    - by rewrite (proj2 (Z.leb_le 16000000 s) Hbig).
    - rewrite (proj2 (Z.leb_gt 16000000 s)) by lia.
      destruct (Z.leb_spec (s / 1000000) 0); lia. }
  destruct m as [n|]; [|exact Hsize].
  cbn in Hm. cbn [Py.truthy_int].
  rewrite (proj2 (Z.ltb_ge 0 n) Hm), andb_false_r. exact Hsize.
Qed.

(** C2. The thread count at the reference values, and in general for a
    known positive size without a positive override: 16 from 16,000,000
    bytes on, below that the whole millions of bytes, at least 1. *)
Theorem threads_reference_values :
  (forall size, _get_appropriate_threads_number (Some 5) size = 5)
  /\ _get_appropriate_threads_number None (Some 20000000) = 16
  /\ _get_appropriate_threads_number None (Some 5000000) = 5
  /\ _get_appropriate_threads_number None (Some 100) = 1
  /\ _get_appropriate_threads_number None None = 16
  /\ (forall m s, no_positive_override m -> 0 < s ->
        _get_appropriate_threads_number m (Some s)
        = if bool_decide (16000000 <= s) then 16 else Z.max 1 (s / 1000000)).
Proof.
  repeat split; try reflexivity. apply threads_by_size.
Qed.

Lemma threads_reference_values_witness :
  _get_appropriate_threads_number (Some (-2)) (Some 7654321) = 7.
Proof.
  destruct threads_reference_values as (_ & _ & _ & _ & _ & Hgen).
  rewrite (Hgen (Some (-2)) 7654321); [reflexivity | cbn; lia | lia].
Defined.

(** C10. A known size of 0 counts as no size: without a positive override
    the thread count is then 16, not 1. *)
Theorem threads_for_size_zero (m : option Z) :
  no_positive_override m ->
  _get_appropriate_threads_number m (Some 0) = 16
  /\ _get_appropriate_threads_number m (Some 0) <> 1.
Proof.
  intros Hm.
  assert (H16 : _get_appropriate_threads_number m (Some 0) = 16).
  { unfold _get_appropriate_threads_number. destruct m as [n|]; [|done].
    cbn in Hm. cbn [Py.truthy_int].
    by rewrite (proj2 (Z.ltb_ge 0 n) Hm), andb_false_r. }
  rewrite H16. split; [done | lia].
Qed.

Lemma threads_for_size_zero_witness :
  no_positive_override (Some 0)
  /\ _get_appropriate_threads_number (Some 0) (Some 0) = 16.
Proof.
  split; [cbn; lia|].
  apply (threads_for_size_zero (Some 0)). cbn; lia.
Defined.

(** * Determinism *)

(** C9. The resolved tool is fixed by the downloader's two settings and by
    which of aria2c and axel are available: neither the order in which the
    interpreter walks a set, nor anything else on the host, nor a second
    call changes it.  The thread count is fixed by its two arguments. *)
Theorem resolve_and_compute_deterministic
    (I1 I2 : Interp) (h1 h2 : Host) (self1 self2 : Downloader)
    (m1 m2 k1 k2 : option Z) :
  same_availability h1 h2 ->
  multithread_enabled self1 = multithread_enabled self2 ->
  multithread_client self1 = multithread_client self2 ->
  m1 = m2 -> k1 = k2 ->
  get_available_multithreaded_tool I1 h1 self1
  = get_available_multithreaded_tool I2 h2 self2
  /\ _get_appropriate_threads_number m1 k1
     = _get_appropriate_threads_number m2 k2.
Proof.
  intros [Haria Haxel] Hen Hcl -> ->. split; [|done].
  rewrite !get_available_multithreaded_tool_cases.
  by rewrite Hen, Hcl, Haria, Haxel.
Qed.

Lemma resolve_and_compute_deterministic_witness :
  get_available_multithreaded_tool an_interp (host_with false true true)
    {| multithread_enabled := true; multithread_client := Some "aria2";
       check_ssl := true |}
  = get_available_multithreaded_tool another_interp (host_with false true false)
      {| multithread_enabled := true; multithread_client := Some "aria2";
         check_ssl := false |}.
Proof.
  apply (resolve_and_compute_deterministic an_interp another_interp
           (host_with false true true) (host_with false true false)
           {| multithread_enabled := true; multithread_client := Some "aria2";
              check_ssl := true |}
           {| multithread_enabled := true; multithread_client := Some "aria2";
              check_ssl := false |}
           (Some 4) (Some 4) (Some 100) (Some 100)).
  - split; reflexivity.
  - reflexivity.
  - reflexivity.
  - reflexivity.
  - reflexivity.
Defined.

(** * Running a computation step by step *)

Section Steps.

Context {A B : Type}.
Variable E : Env.

Lemma wp_ret (a : A) Q w : Q (Return a) w -> wp (ret a) Q w.
Proof. done. Qed.

Lemma wp_raise (e : exn) (Q : outcome A -> World -> Prop) w :
  Q (Raise e) w -> wp (raise e) Q w.
Proof. done. Qed.

Lemma wp_bind (m : M A) (k : A -> M B) Q w :
  wp m (fun r w' =>
          match r with
          | Return a => wp (k a) Q w'
          | Raise e => Q (Raise e) w'
          end) w ->
  wp (bind m k) Q w.
Proof. unfold wp, bind. by destruct (m w) as [[a | e] w']. Qed.

Lemma wp_attempt (m : M A) (Q : outcome (outcome A) -> World -> Prop) w :
  wp m (fun r w' => Q (Return r) w') w -> wp (attempt m) Q w.
Proof. unfold wp, attempt. by destruct (m w). Qed.

Lemma wp_mono (m : M A) (Q Q' : outcome A -> World -> Prop) w :
  (forall r w', Q r w' -> Q' r w') -> wp m Q w -> wp m Q' w.
Proof. unfold wp. auto. Qed.

End Steps.

Section Primitives.

Variable E : Env.

Lemma wp_say e (Q : outcome unit -> World -> Prop) w :
  Q (Return tt) (emit e w) -> wp (say e) Q w.
Proof. done. Qed.

Lemma wp_log_info msg (Q : outcome unit -> World -> Prop) w :
  Q (Return tt) (emit (EvLogInfo msg) w) -> wp (log_info msg) Q w.
Proof. done. Qed.

Lemma wp_log_error msg (Q : outcome unit -> World -> Prop) w :
  Q (Return tt) (emit (EvLogError msg) w) -> wp (log_error msg) Q w.
Proof. done. Qed.

Lemma wp_thread_start t (Q : outcome unit -> World -> Prop) w :
  Q (Return tt) (emit (EvThreadStart t) w) -> wp (thread_start t) Q w.
Proof. done. Qed.

Lemma wp_watcher_print (present : bool) msg (Q : outcome unit -> World -> Prop) w :
  (if present then Q (Return tt) (emit (EvPrint msg) w)
   else Q (Raise AttributeError) w) ->
  wp (watcher_print present msg) Q w.
Proof. by destruct present. Qed.

Lemma wp_watcher_change_substatus (present : bool) msg
    (Q : outcome unit -> World -> Prop) w :
  (if present then Q (Return tt) (emit (EvSubstatus msg) w)
   else Q (Raise AttributeError) w) ->
  wp (watcher_change_substatus present msg) Q w.
Proof. by destruct present. Qed.

Lemma wp_time_time (Q : outcome Z -> World -> Prop) w :
  Q (Return (clock E w)) w -> wp (time_time E) Q w.
Proof. done. Qed.

Lemma wp_os_path_exists p (Q : outcome bool -> World -> Prop) w :
  Q (Return (bool_decide (p ∈ fs w))) w -> wp (os_path_exists p) Q w.
Proof. done. Qed.

Lemma wp_os_remove p (Q : outcome unit -> World -> Prop) w :
  match remove_error E w p with
  | None => Q (Return tt) {| fs := fs w ∖ {[p]};
                             trace := trace w ++ [EvOsRemove p None] |}
  | Some e => Q (Raise e) (emit (EvOsRemove p (Some e)) w)
  end ->
  wp (os_remove E p) Q w.
Proof. unfold wp, os_remove. by destruct (remove_error E w p). Qed.

Lemma wp_path_mkdir dir (Q : outcome unit -> World -> Prop) w :
  match mkdir_error E w dir with
  | None => Q (Return tt) {| fs := fs w ∪ {[dir]};
                             trace := trace w ++ [EvMkdir dir None] |}
  | Some e => Q (Raise e) (emit (EvMkdir dir (Some e)) w)
  end ->
  wp (path_mkdir E dir) Q w.
Proof. unfold wp, path_mkdir. by destruct (mkdir_error E w dir). Qed.

Lemma wp_new_SimpleProcess c dir password
    (Q : outcome SimpleProcess -> World -> Prop) w :
  (let p := {| cmd := c; proc_cwd := dir; proc_root_password := password |} in
   match process_error E w p with
   | None => Q (Return p) (emit (EvNewProcess p None) w)
   | Some e => Q (Raise e) (emit (EvNewProcess p (Some e)) w)
   end) ->
  wp (new_SimpleProcess E c dir password) Q w.
Proof.
  unfold wp, new_SimpleProcess. cbv zeta.
  by destruct (process_error E w _).
Qed.

Lemma wp_handle_simple handler p
    (Q : outcome (bool * string) -> World -> Prop) w :
  Q (fst (process_run E w p))
    {| fs := snd (process_run E w p);
       trace := trace w ++ handler_prints handler p (process_prints E w p)
                        ++ [EvHandle p (fst (process_run E w p))] |} ->
  wp (handle_simple E handler p) Q w.
Proof. unfold wp, handle_simple. by destruct (process_run E w p). Qed.

Lemma wp_http_get_content_length url
    (Q : outcome (option string) -> World -> Prop) w :
  Q (content_length E w url) w -> wp (http_get_content_length E url) Q w.
Proof. done. Qed.

End Primitives.

(** One step of a run: the rule of the computation at hand, or a case
    distinction on what it branches on. *)
Ltac run_step E :=
  lazymatch goal with
  | |- wp (bind _ _) _ _ => apply wp_bind
  | |- wp (ret _) _ _ => apply wp_ret
  | |- wp (raise _) _ _ => apply wp_raise
  | |- wp (attempt _) _ _ => apply wp_attempt
  | |- wp (say _) _ _ => apply wp_say
  | |- wp (log_info _) _ _ => apply wp_log_info
  | |- wp (log_error _) _ _ => apply wp_log_error
  | |- wp (thread_start _) _ _ => apply wp_thread_start
  | |- wp (watcher_print _ _) _ _ => apply wp_watcher_print
  | |- wp (watcher_change_substatus _ _) _ _ =>
      apply wp_watcher_change_substatus
  | |- wp (time_time _) _ _ => apply wp_time_time
  | |- wp (os_path_exists _) _ _ => apply wp_os_path_exists
  | |- wp (os_remove _ _) _ _ => apply wp_os_remove
  | |- wp (path_mkdir _ _) _ _ => apply wp_path_mkdir
  | |- wp (new_SimpleProcess _ _ _ _) _ _ => apply wp_new_SimpleProcess
  | |- wp (handle_simple _ _ _) _ _ => apply wp_handle_simple
  | |- wp (http_get_content_length _ _) _ _ =>
      apply wp_http_get_content_length
  | |- wp (if ?b then _ else _) _ _ => destruct b eqn:?
  | |- wp (match ?x with _ => _ end) _ _ => destruct x eqn:?
  | |- if ?b then _ else _ => destruct b eqn:?
  | |- match ?x with _ => _ end => destruct x eqn:?
  | |- wp (_rm_bad_file _ _ _ _ _ _) _ _ => unfold _rm_bad_file
  | |- wp (_get_aria2c_process _ _ _ _ _ _) _ _ => unfold _get_aria2c_process
  | |- wp (_get_axel_process _ _ _ _ _ _ _) _ _ => unfold _get_axel_process
  | |- wp (_get_wget_process _ _ _ _ _ _) _ _ => unfold _get_wget_process
  | |- wp (prepare_output _ _) _ _ => unfold prepare_output
  | |- wp (launch _ _ _ _ _) _ _ => unfold launch
  | |- wp (on_exception _ _ _ _ _) _ _ => unfold on_exception
  | |- wp (finish _ _ _ _ _ _) _ _ => unfold finish
  | |- wp (download _ _ _) _ _ => unfold download
  | |- wp (_concat_file_size _ _ _ _) _ _ => unfold _concat_file_size
  end;
  cbv beta iota zeta delta
    [emit start at_try trace fs app negb handler_prints];
  try congruence.

(** * Downloads *)

Lemma to_delete_given (name : string) (out : option string) (dir : string) :
  Py.truthy_str out = true -> to_delete name out dir = Py.the_str out.
Proof. unfold to_delete. by intros ->. Qed.

(** C5. When the output file is not there and its directory cannot be made,
    the call returns false without making or running any process, and a
    watcher is told that the directory could not be made. *)
Theorem mkdir_failure_is_fatal
    (E : Env) (self : Downloader) (req : DownloadRequest) (files : gset string) :
  Py.truthy_str (output_path req) = true ->
  Py.the_str (output_path req) ∉ files ->
  mkdir_error E (at_try req files)
    (os_path_dirname (Py.the_str (output_path req))) = Some OSError ->
  let run := download E self req (start files) in
  fst run = Return false
  /\ no_process (trace (snd run))
  /\ (watcher req = true ->
      EvPrint (format_dir E (i18n E "error.mkdir")
                 (os_path_dirname (Py.the_str (output_path req))))
      ∈ trace (snd run)).
Proof.
  intros Hout Hnew Hmk. cbv zeta.
  pose proof (bool_decide_eq_false_2 _ Hnew) as Hgone.
  pose proof (fun name dir => to_delete_given name _ dir Hout) as Htarget.
  cbv beta iota zeta delta [emit start at_try trace fs app] in Hmk.
  change (wp (download E self req)
            (fun r w' =>
               r = Return false /\ no_process (trace w')
               /\ (watcher req = true ->
                   EvPrint (format_dir E (i18n E "error.mkdir")
                     (os_path_dirname (Py.the_str (output_path req))))
                   ∈ trace w'))
            (start files)).
  repeat (run_step E; rewrite ?Htarget in *; try congruence).
  all: split; [done|]; split;
    [unfold no_process; by repeat constructor
    | intros Hwatcher; try discriminate; set_solver].
Qed.

Lemma mkdir_failure_is_fatal_witness :
  fst (download
         (with_faults (calm (host_with true true true))
            (fun _ _ => None) (fun _ _ => Some OSError)
            (fun _ _ => None) (fun w _ => (Return (true, EmptyString), fs w)))
         a_downloader (request "http://host/pkg.tar.gz" (Some "/etc/passwd/pkg.tar.gz"))
         (start {["/etc/passwd"]}))
  = Return false.
Proof.
  apply (mkdir_failure_is_fatal
           (with_faults (calm (host_with true true true))
              (fun _ _ => None) (fun _ _ => Some OSError)
              (fun _ _ => None) (fun w _ => (Return (true, EmptyString), fs w)))
           a_downloader
           (request "http://host/pkg.tar.gz" (Some "/etc/passwd/pkg.tar.gz"))
           {["/etc/passwd"]}).
  - reflexivity.
  - vm_compute. set_solver.
  - reflexivity.
Defined.

Lemma aria2c_command_head url out threads :
  exists rest, aria2c_command url out threads = "aria2c" :: rest.
Proof. unfold aria2c_command. repeat case_match; eexists; reflexivity. Qed.

Lemma axel_command_head self url out threads :
  exists rest, axel_command self url out threads = "axel" :: rest.
Proof. unfold axel_command. repeat case_match; eexists; reflexivity. Qed.

Lemma wget_command_head self url out :
  exists rest, wget_command self url out = "wget" :: rest.
Proof. unfold wget_command. repeat case_match; eexists; reflexivity. Qed.

Lemma aria2c_not_rm url out threads target :
  aria2c_command url out threads <> rm_command target.
Proof. destruct (aria2c_command_head url out threads) as [rest ->]. done. Qed.

Lemma axel_not_rm self url out threads target :
  axel_command self url out threads <> rm_command target.
Proof. destruct (axel_command_head self url out threads) as [rest ->]. done. Qed.

Lemma wget_not_rm self url out target :
  wget_command self url out <> rm_command target.
Proof. destruct (wget_command_head self url out) as [rest ->]. done. Qed.

(** ** Runs against any environment

    For a property of every run it is enough to let the operating system
    and the processes answer anything at all. *)

Section AnyAnswer.

Variable E : Env.

Lemma any_time_time (Q : outcome Z -> World -> Prop) w :
  (forall t, Q (Return t) w) -> wp (time_time E) Q w.
Proof. intros HQ. apply HQ. Qed.

Lemma any_os_remove p (Q : outcome unit -> World -> Prop) w :
  Q (Return tt) {| fs := fs w ∖ {[p]};
                   trace := trace w ++ [EvOsRemove p None] |} ->
  (forall e, Q (Raise e) (emit (EvOsRemove p (Some e)) w)) ->
  wp (os_remove E p) Q w.
Proof.
  intros Hok Hraise. apply wp_os_remove.
  destruct (remove_error E w p); auto.
Qed.

Lemma any_path_mkdir dir (Q : outcome unit -> World -> Prop) w :
  Q (Return tt) {| fs := fs w ∪ {[dir]};
                   trace := trace w ++ [EvMkdir dir None] |} ->
  (forall e, Q (Raise e) (emit (EvMkdir dir (Some e)) w)) ->
  wp (path_mkdir E dir) Q w.
Proof.
  intros Hok Hraise. apply wp_path_mkdir.
  destruct (mkdir_error E w dir); auto.
Qed.

Lemma any_new_SimpleProcess c dir password
    (Q : outcome SimpleProcess -> World -> Prop) w :
  (forall p, cmd p = c -> proc_root_password p = password ->
             Q (Return p) (emit (EvNewProcess p None) w)) ->
  (forall p e, cmd p = c -> Q (Raise e) (emit (EvNewProcess p (Some e)) w)) ->
  wp (new_SimpleProcess E c dir password) Q w.
Proof.
  intros Hok Hraise. apply wp_new_SimpleProcess. cbv zeta.
  destruct (process_error E w _); auto.
Qed.

Lemma hears_prints handler p lines :
  hears handler p (handler_prints handler p lines).
Proof. by destruct handler; constructor. Qed.

Lemma any_handle_simple handler p
    (Q : outcome (bool * string) -> World -> Prop) w :
  (forall r files heard, hears handler p heard ->
     Q r {| fs := files; trace := trace w ++ heard ++ [EvHandle p r] |}) ->
  wp (handle_simple E handler p) Q w.
Proof. intros HQ. apply wp_handle_simple. apply HQ, hears_prints. Qed.

End AnyAnswer.

Lemma to_delete_truthy (name : string) (out : option string) (dir : string) :
  Py.truthy_str (Some (to_delete name out dir)) = true.
Proof.
  unfold to_delete. destruct (Py.truthy_str out) eqn:Hout.
  - by destruct out.
  - by destruct dir.
Qed.

(** Stepping through a run whose answers are left open. *)
Ltac any_step E :=
  lazymatch goal with
  | |- wp (time_time _) _ _ => apply any_time_time; intros ?
  | |- wp (os_remove _ _) _ _ => apply any_os_remove; [|intros ?]
  | |- wp (path_mkdir _ _) _ _ => apply any_path_mkdir; [|intros ?]
  | |- wp (new_SimpleProcess _ _ _ _) _ _ =>
      apply any_new_SimpleProcess; [intros ? ? ?|intros ? ? ?]
  | |- wp (handle_simple _ _ _) _ _ =>
      let Hheard := fresh "Hheard" in
      apply any_handle_simple; intros ? ? ? Hheard; destruct Hheard
  | |- wp (bind _ _) _ _ => apply wp_bind
  | |- wp (ret _) _ _ => apply wp_ret
  | |- wp (raise _) _ _ => apply wp_raise
  | |- wp (attempt _) _ _ => apply wp_attempt
  | |- wp (say _) _ _ => apply wp_say
  | |- wp (log_info _) _ _ => apply wp_log_info
  | |- wp (log_error _) _ _ => apply wp_log_error
  | |- wp (thread_start _) _ _ => apply wp_thread_start
  | |- wp (watcher_print _ _) _ _ => apply wp_watcher_print
  | |- wp (watcher_change_substatus _ _) _ _ =>
      apply wp_watcher_change_substatus
  | |- wp (os_path_exists _) _ _ => apply wp_os_path_exists
  | |- wp (if ?b then _ else _) _ _ => destruct b eqn:?
  | |- wp (match ?x with _ => _ end) _ _ => destruct x eqn:?
  | |- if ?b then _ else _ => destruct b eqn:?
  | |- match ?x with _ => _ end => destruct x eqn:?
  end;
  unfold emit, start, at_try; cbn beta iota zeta delta [trace fs negb fst snd app];
  try congruence.

Section Parts.

Variable E : Env.
Variable self : Downloader.

(** [_rm_bad_file] does nothing when the file is not there; otherwise it
    logs, makes the [rm -rf] process and, if that worked, runs it. *)
Lemma any_rm_bad_file name out dir handler password
    (Q : outcome (option bool) -> World -> Prop) w :
  let target := to_delete name out dir in
  (target ∉ fs w -> Q (Return None) w) ->
  (forall p e, target ∈ fs w -> cmd p = rm_command target ->
     Q (Raise e)
       {| fs := fs w;
          trace := trace w ++ [EvLogInfo ("Removing downloaded file " ++ target);
                               EvNewProcess p (Some e)] |}) ->
  (forall p r files heard, target ∈ fs w -> cmd p = rm_command target ->
     hears handler p heard ->
     Q (removed_of r)
       {| fs := files;
          trace := trace w ++ EvLogInfo ("Removing downloaded file " ++ target)
                     :: EvNewProcess p None :: heard ++ [EvHandle p r] |}) ->
  wp (_rm_bad_file E name out dir handler password) Q w.
Proof.
  intros target Habsent Hnew Hran. unfold _rm_bad_file.
  rewrite to_delete_truthy. fold target.
  repeat any_step E.
  all: try match goal with
           | H : bool_decide _ = true |- _ => apply bool_decide_eq_true in H
           | H : bool_decide _ = false |- _ => apply bool_decide_eq_false in H
           end;
       rewrite <- ?app_assoc.
  all: first [ by apply Habsent
             | by apply Hnew
             | match goal with
               | |- context [EvHandle ?p ?r] =>
                   first [ by apply (Hran p r _ []); [..|constructor]
                         | by eapply (Hran p r _ [_]); [..|constructor] ]
               end ].
Qed.

Lemma backend_aria2c url out threads :
  backend_command (aria2c_command url out threads).
Proof.
  destruct (aria2c_command_head url out threads) as [rest ->].
  exists "aria2c", rest. split; [done | set_solver].
Qed.

Lemma backend_axel url out threads :
  backend_command (axel_command self url out threads).
Proof.
  destruct (axel_command_head self url out threads) as [rest ->].
  exists "axel", rest. split; [done | set_solver].
Qed.

Lemma backend_wget url out : backend_command (wget_command self url out).
Proof.
  destruct (wget_command_head self url out) as [rest ->].
  exists "wget", rest. split; [done | set_solver].
Qed.

Lemma backend_not_rm c target : backend_command c -> c <> rm_command target.
Proof.
  intros (tool & rest & -> & Htool) [= -> _].
  repeat (apply elem_of_cons in Htool as [Htool | Htool]; [discriminate|]).
  by apply elem_of_nil in Htool.
Qed.

(** [launch] makes the process of one download tool; unless that raises
    it tells the watcher, if there is one, and runs the process. *)
Lemma any_launch req client final_cwd (Q : outcome bool -> World -> Prop) w :
  (forall p e, backend_command (cmd p) ->
     Q (Raise e)
       {| fs := fs w; trace := trace w ++ [EvNewProcess p (Some e)] |}) ->
  (forall p told r files heard, backend_command (cmd p) -> telling told ->
     hears (watcher req) p heard ->
     Q (success_of r)
       {| fs := files;
          trace := trace w ++ EvNewProcess p None :: told ++ heard
                     ++ [EvHandle p r] |}) ->
  wp (launch E self req client final_cwd) Q w.
Proof.
  intros Hnew Hran. unfold launch.
  unfold _get_aria2c_process, _get_axel_process, _get_wget_process.
  repeat any_step E.
  all: rewrite <- ?app_assoc.
  all: try match goal with
           | Hc : cmd ?p = aria2c_command _ _ _ |- _ =>
               pose proof (backend_aria2c (file_url req) (output_path req)
                 (_get_appropriate_threads_number (max_threads req) (known_size req)))
                 as Hback; rewrite <- Hc in Hback
           | Hc : cmd ?p = axel_command _ _ _ _ |- _ =>
               pose proof (backend_axel (file_url req) (output_path req)
                 (_get_appropriate_threads_number (max_threads req) (known_size req)))
                 as Hback; rewrite <- Hc in Hback
           | Hc : cmd ?p = wget_command _ _ _ |- _ =>
               pose proof (backend_wget (file_url req) (output_path req))
                 as Hback; rewrite <- Hc in Hback
           end.
  all: first
    [ by apply Hnew
    | match goal with
      | |- context [EvHandle ?p ?r] =>
          first [ by apply (Hran p [] r _ []); [|constructor..]
                | by eapply (Hran p [] r _ [_]); [|constructor..]
                | by eapply (Hran p [_] r _ []); [|constructor..]
                | by eapply (Hran p [_] r _ [_]); [|constructor..] ]
      end ].
Qed.

End Parts.

(** A call has a watcher or has none. *)
Ltac watcher_known :=
  match goal with
  | Hyes : watcher ?req = true, Hno : watcher ?req = false |- _ =>
      exfalso; rewrite Hyes in Hno; discriminate Hno
  end.

(** Stepping through [download]: its own lines one at a time, [launch] and
    [_rm_bad_file] by what is known of them. *)
Ltac download_step E :=
  first
    [ lazymatch goal with
      | |- wp (download _ _ _) _ _ => unfold download
      | |- wp (prepare_output _ _) _ _ => unfold prepare_output
      | |- wp (on_exception _ _ _ _ _) _ _ => unfold on_exception
      | |- wp (finish _ _ _ _ _ _) _ _ => unfold finish
      | |- wp (_rm_bad_file _ _ _ _ _ _) _ _ =>
          apply any_rm_bad_file;
          [intros ? | intros ? ? ? ?
          | let Hheard := fresh "Hheard" in
            intros ? ? ? ? ? ? Hheard; destruct Hheard]
      | |- wp (launch _ _ _ _ _) _ _ =>
          apply any_launch;
          [intros ? ? ?
          | let Htold := fresh "Htold" in
            let Hheard := fresh "Hheard" in
            intros ? ? ? ? ? ? Htold Hheard; destruct Htold, Hheard]
      | |- context [success_of ?r] => is_var r; destruct r as [[[] ?] | ?]
      | |- context [removed_of ?r] => is_var r; destruct r as [[? ?] | ?]
      end;
      unfold emit, start, at_try;
      cbn beta iota zeta delta
        [trace fs negb fst snd app success_of removed_of];
      try watcher_known
    | any_step E ].

(** [x] is in a list that is written out. *)
Ltac in_list :=
  repeat first [ by apply list_elem_of_here | apply list_elem_of_further ].

(** The leaves of a run of [download]. *)
Ltac tidy_run :=
  unfold cleaned_up, artifact in *; cbn [fs trace] in *.

Ltac find_backend_success :=
  match goal with
  | Hb : backend_command (cmd ?p) |- backend_succeeded _ _ =>
      eexists p, _; split; [solve [in_list] | by apply backend_not_rm]
  end.

Ltac find_cleanup_run :=
  multimatch goal with
  | Hc : cmd ?p = rm_command _ |- cleanup_run _ _ =>
      eexists p, _; split; [solve [in_list] | exact Hc]
  end.

Ltac find_cleanup_raised :=
  multimatch goal with
  | Hc : cmd ?p = rm_command _ |- cleanup_raised _ _ _ =>
      exists p; split;
      [exact Hc | first [left; solve [in_list] | right; solve [in_list]]]
  end.

Ltac no_backend_success :=
  let q := fresh "q" in
  let out := fresh "out" in
  let Hin := fresh "Hin" in
  let Hne := fresh "Hne" in
  intros (q & out & Hin & Hne);
  repeat (apply elem_of_cons in Hin as [Hin | Hin];
          [try discriminate;
           try (injection Hin as -> ?; by apply Hne) |]);
  by apply elem_of_nil in Hin.

(** C4, amended. A call that does not succeed removes what it may have left
    ([rm -rf] on the file, if it is there) and returns false, and what the
    removal reports changes nothing: the call returns true exactly when the
    download process reported success.  The one way out of this is an
    exception raised while making or running the [rm -rf] process itself,
    which the call does not catch. *)
Theorem download_failure_outcome
    (E : Env) (self : Downloader) (req : DownloadRequest) (files : gset string) :
  let run := download E self req (start files) in
  match fst run with
  | Return true => backend_succeeded req (trace (snd run))
  | Return false =>
      ~ backend_succeeded req (trace (snd run)) /\ cleaned_up req (snd run)
  | Raise e => cleanup_raised req e (trace (snd run))
  end.
Proof.
  cbv zeta.
  change (wp (download E self req)
            (fun r w' =>
               match r with
               | Return true => backend_succeeded req (trace w')
               | Return false =>
                   ~ backend_succeeded req (trace w') /\ cleaned_up req w'
               | Raise e => cleanup_raised req e (trace w')
               end)
            (start files)).
  repeat (download_step E).
  all: tidy_run.
  all: try solve [find_backend_success].
  all: try solve [find_cleanup_raised].
  all: try (split;
            [ solve [no_backend_success]
            | first [ left; assumption
                    | right; solve [find_cleanup_run]
                    | idtac ] ]).
  left. rewrite to_delete_given by done.
  by apply (bool_decide_eq_false_1 (Py.the_str (output_path req) ∈ files)).
Qed.

(** C4 as stated fails: where no process can be started, neither wget nor
    the [rm -rf] that should remove the file already lying in the working
    directory, the second failure is not caught and the call raises. *)
Lemma fails_cleanly_fails :
  ~ fails_cleanly (no_spawn (host_with false false true)) a_downloader
      (request "http://host/pkg.tar.gz" None) {["./pkg.tar.gz"]}.
Proof.
  unfold fails_cleanly. cbv zeta.
  assert (Hrun :
    fst (download (no_spawn (host_with false false true)) a_downloader
           (request "http://host/pkg.tar.gz" None) (start {["./pkg.tar.gz"]}))
    = Raise OSError) by (vm_compute; reflexivity).
  rewrite Hrun. intros [Hok | [Hfalse _]]; discriminate.
Qed.

(** ** The time taken *)

Ltac not_in_list Hin :=
  repeat (apply elem_of_cons in Hin as [Hin | Hin]; [discriminate|]);
  by apply elem_of_nil in Hin.

(** C6 as stated fails: when the directory cannot be made the call returns
    false at once, and no time has been logged. *)
Lemma elapsed_always_logged_fails :
  ~ elapsed_always_logged (no_mkdir (host_with true true true)) a_downloader
      (request "http://host/pkg.tar.gz" (Some "/etc/passwd/pkg.tar.gz"))
      {["/etc/passwd"]}.
Proof.
  unfold elapsed_always_logged, took_logged. cbv zeta. intros Hall.
  destruct (Hall false) as (ti & tf & Hin); [by vm_compute|].
  revert Hin.
  match goal with
  | |- _ ∈ ?evs -> _ =>
      let evs' := eval vm_compute in evs in
      change evs with evs'
  end.
  intros Hin. not_in_list Hin.
Qed.

(** Lines 143 to 156 as they are, [mkdir] included. *)
Ltac prepare_step E :=
  first
    [ lazymatch goal with
      | |- wp (prepare_output _ _) _ _ => unfold prepare_output
      | |- wp (path_mkdir _ _) _ _ => apply wp_path_mkdir
      end
    | any_step E ].

(** Lines 143 to 156 return, at line 156, only after [mkdir] raised
    [OSError] and the watcher was told; nothing else has happened then. *)
Lemma prepare_output_returns E req w b :
  fst (prepare_output E req w) = Return (Some b) ->
  b = false
  /\ Py.truthy_str (output_path req) = true
  /\ (Py.the_str (output_path req) ∉ fs w)
  /\ mkdir_error E w (os_path_dirname (Py.the_str (output_path req)))
     = Some OSError
  /\ watcher req = true
  /\ exists e1 e2 e3,
       trace (snd (prepare_output E req w)) = (trace w ++ [e1; e2; e3])%list
       /\ is_fs_call e1 = true /\ is_trouble e2 = true /\ is_trouble e3 = true.
Proof.
  change (wp (prepare_output E req)
            (fun r w' =>
               r = Return (Some b) ->
               b = false
               /\ Py.truthy_str (output_path req) = true
               /\ (Py.the_str (output_path req) ∉ fs w)
               /\ mkdir_error E w (os_path_dirname (Py.the_str (output_path req)))
                  = Some OSError
               /\ watcher req = true
               /\ exists e1 e2 e3,
                    trace w' = (trace w ++ [e1; e2; e3])%list
                    /\ is_fs_call e1 = true /\ is_trouble e2 = true
                    /\ is_trouble e3 = true)
            w).
  repeat prepare_step E.
  all: intros [= <-].
  match goal with
  | H : bool_decide _ = false |- _ => apply bool_decide_eq_false in H
  end.
  repeat split; try done.
  rewrite <- !app_assoc. by eexists _, _, _.
Qed.

(** And whenever [mkdir] raises [OSError] with a watcher there, they
    return. *)
Lemma prepare_output_gives_up E req w :
  Py.truthy_str (output_path req) = true ->
  Py.the_str (output_path req) ∉ fs w ->
  mkdir_error E w (os_path_dirname (Py.the_str (output_path req)))
  = Some OSError ->
  watcher req = true ->
  fst (prepare_output E req w) = Return (Some false).
Proof.
  intros Hout Habsent Hmkdir Hwatcher.
  change (wp (prepare_output E req)
            (fun r _ => r = Return (Some false)) w).
  unfold prepare_output. rewrite Hout.
  apply wp_bind, wp_os_path_exists.
  rewrite bool_decide_eq_false_2; [|done].
  apply wp_bind, wp_attempt, wp_path_mkdir. rewrite Hmkdir.
  rewrite Hwatcher.
  repeat prepare_step E.
Qed.

(** Lines 200 to 207 read the clock and log the time first of all. *)
Lemma finish_logs E req file_name final_cwd ti success w :
  exists post,
    trace (snd (finish E req file_name final_cwd ti success w))
    = (trace w ++ EvLogTook file_name ti (clock E w) :: post)%list.
Proof.
  change (wp (finish E req file_name final_cwd ti success)
            (fun _ w' =>
               exists post,
                 trace w'
                 = (trace w ++ EvLogTook file_name ti (clock E w) :: post)%list)
            w).
  unfold finish.
  apply wp_bind, wp_time_time. apply wp_bind, wp_say.
  unfold emit. cbn [trace fs].
  repeat download_step E.
  all: cbn [trace]; rewrite <- ?app_assoc; by eexists.
Qed.

(** C6, amended. The time is logged on every return of [download] but one:
    the return of line 156, taken when the directory of the output path
    cannot be made ([mkdir] raises [OSError]) and there is a watcher to
    tell; the call then returns false and has logged no time.  (Without a
    watcher, telling it raises, the exception is caught, and the time is
    logged as after any other exception.)  What is logged is not the time
    of the whole call: it runs from the last reading of the clock into
    [ti], which is made again just before the download process is built,
    to the reading made after the [try] statement. *)
Theorem elapsed_logged_unless_mkdir_return
    (E : Env) (self : Downloader) (req : DownloadRequest) (files : gset string)
    (b : bool) :
  let run := download E self req (start files) in
  fst run = Return b ->
  (mkdir_return E req files /\ b = false
   /\ ~ took_logged req (trace (snd run)))
  \/ (~ mkdir_return E req files
      /\ elapsed_logged E self req files (trace (snd run))).
Proof.
  cbv zeta.
  pose proof (prepare_output_returns E req (at_try req files)) as Hreturns.
  pose proof (prepare_output_gives_up E req (at_try req files)) as Hgives_up.
  unfold elapsed_logged, after_try, last_reading, mkdir_return, final_cwd_of.
  unfold download, bind, attempt, log_info, say, time_time, ret.
  change (emit (EvLogInfo ("Downloading " ++ file_url req)) (start files))
    with (at_try req files).
  change (fs (at_try req files)) with files in Hreturns, Hgives_up.
  destruct (prepare_output E req (at_try req files)) as [[[b'|]|e] w1].
  - cbn [fst snd] in *. intros [= ->].
    destruct (Hreturns b eq_refl)
      as (-> & Hout & Habsent & Hmkdir & Hwatcher
          & e1 & e2 & e3 & -> & Hfs & He2 & He3).
    left. do 2 (split; [done|]).
    intros (ti & tf & Hin). cbn in Hin.
    apply elem_of_cons in Hin as [Hin | Hin]; [discriminate|].
    repeat (apply elem_of_cons in Hin as [Hin | Hin];
            [subst; discriminate|]).
    by apply elem_of_nil in Hin.
  - cbn [fst snd] in *. intros Hret. right. split.
    { intros (Hout & Habsent & Hmkdir & Hwatcher).
      by specialize (Hgives_up Hout Habsent Hmkdir Hwatcher). }
    destruct (launch E self req _ _ w1) as [[success|e] w2]; cbn [fst snd].
    + apply finish_logs.
    + destruct (on_exception E e req _ _ w2) as [[[]|e'] w3];
        [|discriminate Hret].
      cbn [fst snd]. apply finish_logs.
  - cbn [fst snd] in *. intros Hret. right. split.
    { intros (Hout & Habsent & Hmkdir & Hwatcher).
      by specialize (Hgives_up Hout Habsent Hmkdir Hwatcher). }
    destruct (on_exception E e req _ _ w1) as [[[]|e'] w3];
      [|discriminate Hret].
    cbn [fst snd]. apply finish_logs.
Qed.

Lemma elapsed_logged_unless_mkdir_return_witness :
  elapsed_logged (calm (host_with false false true)) a_downloader
    (request "http://host/pkg.tar.gz" None) ∅
    (trace (snd (download (calm (host_with false false true)) a_downloader
                   (request "http://host/pkg.tar.gz" None) (start ∅)))).
Proof.
  destruct (elapsed_logged_unless_mkdir_return
              (calm (host_with false false true)) a_downloader
              (request "http://host/pkg.tar.gz" None) ∅ true)
    as [((Hout & _) & _) | [_ Hlogged]].
  - vm_compute. reflexivity.
  - vm_compute in Hout. discriminate Hout.
  - exact Hlogged.
Defined.

(** ** The stale file *)

(** C8 as stated fails: when [os.remove] is refused the stale file stays,
    and the call goes on to run [rm -rf] on it, a process after all. *)
Lemma stale_file_removed_first_fails :
  ~ stale_file_removed_first (no_remove (host_with true true true)) a_downloader
      (request "http://host/pkg.tar.gz" (Some "/var/cache/pkg.tar.gz"))
      {["/var/cache/pkg.tar.gz"]}.
Proof.
  unfold stale_file_removed_first, removed_before_processes.
  intros (pre & post & Heq & _).
  assert (Hin : EvOsRemove "/var/cache/pkg.tar.gz" None
                ∈ trace (snd (download (no_remove (host_with true true true))
                    a_downloader
                    (request "http://host/pkg.tar.gz"
                       (Some "/var/cache/pkg.tar.gz"))
                    (start {["/var/cache/pkg.tar.gz"]})))).
  { rewrite Heq. apply elem_of_app. right. apply list_elem_of_here. }
  clear Heq. revert Hin.
  match goal with
  | |- _ ∈ ?evs -> _ =>
      let evs' := eval vm_compute in evs in
      change evs with evs'
  end.
  intros Hin. not_in_list Hin.
Qed.

(** C8, amended. When the output file is already there, the first thing the
    call does after two log lines is [os.remove] on it, before any process
    is made or run.  If that works the file is gone before any process; if
    it raises, the call does not return true and the only processes made
    or run are the [rm -rf] of that same file. *)
Theorem stale_file_removal
    (E : Env) (self : Downloader) (req : DownloadRequest) (files : gset string) :
  Py.truthy_str (output_path req) = true ->
  Py.the_str (output_path req) ∈ files ->
  let out := Py.the_str (output_path req) in
  let run := download E self req (start files) in
  exists r post,
    trace (snd run)
    = ([EvLogInfo ("Downloading " ++ file_url req);
        EvLogInfo ("Removing old file found before downloading: " ++ out);
        EvOsRemove out r] ++ post)%list
    /\ match r with
       | None => removed_before_processes out (trace (snd run))
       | Some e =>
           fst run <> Return true
           /\ Forall (fun ev => forall p, process_of ev = Some p ->
                                          cmd p = rm_command out) post
       end.
Proof.
  intros Hout Hthere. cbv zeta.
  pose proof (bool_decide_eq_true_2 _ Hthere) as Hdec.
  pose proof (fun name dir => to_delete_given name _ dir Hout) as Htarget.
  change (wp (download E self req)
            (fun res w' =>
               exists r post,
                 trace w'
                 = ([EvLogInfo ("Downloading " ++ file_url req);
                     EvLogInfo ("Removing old file found before downloading: "
                                ++ Py.the_str (output_path req));
                     EvOsRemove (Py.the_str (output_path req)) r] ++ post)%list
                 /\ match r with
                    | None =>
                        removed_before_processes (Py.the_str (output_path req))
                          (trace w')
                    | Some e =>
                        res <> Return true
                        /\ Forall (fun ev => forall p, process_of ev = Some p ->
                             cmd p = rm_command (Py.the_str (output_path req)))
                             post
                    end)
            (start files)).
  repeat (download_step E).
  all: cbn [trace]; rewrite ?Htarget in *.
  all: eexists _, _; split; [cbn [app]; reflexivity|]; cbv beta iota.
  all: solve
    [ eexists [_; _], _; split;
      [cbn [app]; reflexivity | unfold no_process; by repeat constructor]
    | split; [discriminate|];
      repeat first
        [ apply Forall_nil_2
        | apply Forall_cons_2;
          [intros ? Hp; cbn in Hp; try discriminate;
           injection Hp as <-; assumption|] ] ].
Qed.

Lemma stale_file_removal_witness :
  removed_before_processes "/var/cache/pkg.tar.gz"
    (trace (snd (download (calm (host_with false false true)) a_downloader
                   (request "http://host/pkg.tar.gz" (Some "/var/cache/pkg.tar.gz"))
                   (start {["/var/cache/pkg.tar.gz"]})))).
Proof.
  destruct (stale_file_removal (calm (host_with false false true)) a_downloader
              (request "http://host/pkg.tar.gz" (Some "/var/cache/pkg.tar.gz"))
              {["/var/cache/pkg.tar.gz"]})
    as (r & post & Htrace & Hr).
  - reflexivity.
  - cbn. set_solver.
  - destruct r as [e|]; [|exact Hr].
    vm_compute in Htrace. discriminate Htrace.
Defined.

(** ** The size request *)

(** C7 as stated fails on the text: what the watcher is shown while the size
    is unknown ends in "( ? Mb )" and has no "( ? )" in it. *)
Lemma shows_placeholder_fails :
  ~ shows_placeholder "( ? )" (calm (host_with false false true))
      "http://host/pkg.tar.gz" "[wget] downloading pkg.tar.gz" (start ∅).
Proof.
  unfold shows_placeholder. intros (msg & Hin & Hhas). revert Hin.
  match goal with
  | |- _ ∈ ?evs -> _ =>
      let evs' := eval vm_compute in evs in
      change evs with evs'
  end.
  intros Hin.
  apply elem_of_cons in Hin as [Hin | Hin].
  - injection Hin as ->. vm_compute in Hhas. discriminate Hhas.
  - by apply elem_of_nil in Hin.
Qed.

(** The thread's body never reads what [download] does, and [download]
    never asks for the content length: its run is the same whatever the
    request for it would answer. *)
Lemma download_ignores_content_length
    (E : Env) (self : Downloader) (req : DownloadRequest) (w : World) probe :
  download (with_content_length E probe) self req w = download E self req w.
Proof. reflexivity. Qed.

(** C7, amended. When the request for the content length fails, by raising
    or by giving no size, the thread that made it ends without raising,
    having shown the watcher the text with " ( ? Mb )" and nothing after it;
    and the download runs and returns as it would with any other answer. *)
Theorem probe_failure_is_harmless
    (E : Env) (self : Downloader) (req : DownloadRequest) (files : gset string)
    (url base_substatus : string) (w : World) :
  probe_failed
    (content_length E (emit (EvSubstatus (placeholder_text base_substatus)) w) url) ->
  _concat_file_size E url base_substatus true w
  = (Return tt, emit (EvSubstatus (placeholder_text base_substatus)) w)
  /\ run_thread E (ConcatFileSize url base_substatus) w
     = emit (EvSubstatus (placeholder_text base_substatus)) w
  /\ forall probe,
       download (with_content_length E probe) self req (start files)
       = download E self req (start files).
Proof.
  intros Hfailed.
  assert (Hbody : _concat_file_size E url base_substatus true w
                  = (Return tt,
                     emit (EvSubstatus (placeholder_text base_substatus)) w)).
  { unfold _concat_file_size, bind, attempt, ret, watcher_change_substatus,
      say, http_get_content_length, placeholder_text in *.
    destruct (content_length E _ url) as [size | e]; [|done].
    cbn in Hfailed. by rewrite Hfailed. }
  split; [exact Hbody|]. split.
  - unfold run_thread. by rewrite Hbody.
  - intros probe. apply download_ignores_content_length.
Qed.

Lemma probe_failure_is_harmless_witness :
  run_thread (calm (host_with false false true))
    (ConcatFileSize "http://host/pkg.tar.gz" "[wget] downloading pkg.tar.gz")
    (start ∅)
  = emit (EvSubstatus "[wget] downloading pkg.tar.gz ( ? Mb )") (start ∅).
Proof.
  apply (probe_failure_is_harmless (calm (host_with false false true))
           a_downloader (request "http://host/pkg.tar.gz" None) ∅
           "http://host/pkg.tar.gz" "[wget] downloading pkg.tar.gz" (start ∅)).
  reflexivity.
Defined.

(** * More on the choice of tool *)

Lemma list_available_cases (h : Host) :
  list_available_multithreaded_clients h
  = ((if is_aria2c_available h then ["aria2"] else [])
     ++ (if is_axel_available h then ["axel"] else []))%list.
Proof.
  unfold list_available_multithreaded_clients, supported_multithread_clients,
    is_multithreaded_client_available.
  cbn. by destruct (is_aria2c_available h), (is_axel_available h).
Qed.

(** X1. A tool that [get_available_multithreaded_tool] returns is one that
    [list_available_multithreaded_clients] lists: it is supported and
    installed, and multi-threading is enabled. *)
Theorem resolved_tool_is_listed
    (I : Interp) (h : Host) (self : Downloader) (tool : string) :
  get_available_multithreaded_tool I h self = Some tool ->
  tool ∈ list_available_multithreaded_clients h
  /\ tool ∈ supported_multithread_clients
  /\ is_multithreaded_client_available h tool = true
  /\ multithread_enabled self = true.
Proof.
  rewrite get_available_multithreaded_tool_cases, list_available_cases.
  unfold supported_multithread_clients, is_multithreaded_client_available.
  destruct (multithread_enabled self); [|done].
  case_bool_decide;
    destruct (is_aria2c_available h) eqn:Haria,
             (is_axel_available h) eqn:Haxel;
    intros [= <-]; cbn; rewrite ?Haria, ?Haxel;
    repeat split; try done;
    repeat first [apply list_elem_of_here | apply list_elem_of_further].
Qed.

Lemma resolved_tool_is_listed_witness :
  "axel" ∈ list_available_multithreaded_clients (host_with false true true).
Proof.
  apply (resolved_tool_is_listed an_interp (host_with false true true)
           {| multithread_enabled := true; multithread_client := Some "aria2";
              check_ssl := true |} "axel").
  reflexivity.
Defined.

(** X2. [is_multithreaded] holds exactly when multi-threading is enabled
    and [list_available_multithreaded_clients] is not empty. *)
Theorem is_multithreaded_iff_listed
    (I : Interp) (h : Host) (self : Downloader) :
  is_multithreaded I h self = true
  <-> multithread_enabled self = true
      /\ list_available_multithreaded_clients h <> [].
Proof.
  rewrite is_multithreaded_enabled, list_available_cases.
  destruct (multithread_enabled self), (is_aria2c_available h),
    (is_axel_available h); cbn; intuition congruence.
Qed.

(** * More on the thread count *)

Lemma threads_without_size (m : option Z) :
  no_positive_override m ->
  _get_appropriate_threads_number m (Some 0) = 16
  /\ _get_appropriate_threads_number m None = 16.
Proof.
  intros Hm. unfold _get_appropriate_threads_number.
  destruct m as [n|]; [|done].
  cbn in Hm. cbn [Py.truthy_int].
  by rewrite (proj2 (Z.ltb_ge 0 n) Hm), andb_false_r.
Qed.

Lemma threads_with_override (n : Z) (k : option Z) :
  0 < n -> _get_appropriate_threads_number (Some n) k = n.
Proof.
  intros Hn. unfold _get_appropriate_threads_number. cbn [Py.truthy_int].
  destruct (Z.eqb_spec n 0) as [-> | _]; [lia|].
  by rewrite (proj2 (Z.ltb_lt 0 n) Hn).
Qed.

Lemma threads_by_size_range (m : option Z) (k : option Z) :
  no_positive_override m ->
  match k with Some s => 0 <= s | None => True end ->
  1 <= _get_appropriate_threads_number m k <= 16.
Proof.
  intros Hm Hk. destruct k as [s|].
  - destruct (decide (s = 0)) as [-> | Hs].
    + destruct (threads_without_size m Hm) as [-> _]. lia.
    + rewrite threads_by_size by (done || lia).
      case_bool_decide; [lia|].
      assert (s / 1000000 < 16) by (apply Z.div_lt_upper_bound; lia).
      lia.
  - destruct (threads_without_size m Hm) as [_ ->]. lia.
Qed.

(** X3. For a size that is absent or not negative the thread count is at
    least 1, and without a positive override it is at most 16. *)
Theorem threads_in_range (m k : option Z) :
  match k with Some s => 0 <= s | None => True end ->
  1 <= _get_appropriate_threads_number m k
  /\ (no_positive_override m -> _get_appropriate_threads_number m k <= 16).
Proof.
  intros Hk. split.
  - destruct m as [n|].
    + destruct (Z.lt_ge_cases 0 n) as [Hn | Hn].
      * rewrite threads_with_override by done. lia.
      * by apply (threads_by_size_range (Some n)); [cbn; lia|].
    + by apply (threads_by_size_range None).
  - intros Hm. by apply threads_by_size_range.
Qed.

Lemma threads_in_range_witness :
  1 <= _get_appropriate_threads_number (Some (-1)) (Some 999) <= 16.
Proof.
  destruct (threads_in_range (Some (-1)) (Some 999)) as [Hlow Hhigh].
  - lia.
  - split; [exact Hlow | apply Hhigh; cbn; lia].
Defined.

(** X4. Without a positive override a larger known size never gets fewer
    threads, sizes above 0 being compared. *)
Theorem threads_monotone (m : option Z) (s s' : Z) :
  no_positive_override m -> 0 < s -> s <= s' ->
  _get_appropriate_threads_number m (Some s)
  <= _get_appropriate_threads_number m (Some s').
Proof.
  intros Hm Hs Hle.
  rewrite !threads_by_size by (done || lia).
  repeat case_bool_decide; try lia.
  - assert (s / 1000000 < 16) by (apply Z.div_lt_upper_bound; lia). lia.
  - assert (s / 1000000 <= s' / 1000000) by (apply Z.div_le_mono; lia). lia.
Qed.

Lemma threads_monotone_witness :
  _get_appropriate_threads_number None (Some 2500000)
  <= _get_appropriate_threads_number None (Some 9000000).
Proof. apply threads_monotone; [exact I | lia | lia]. Defined.

(** * Splitting at the slashes *)

Lemma split_chars_not_nil sep cur cs : Py.split_chars sep cur cs <> [].
Proof.
  revert cur. induction cs as [|c cs IH]; intros cur; cbn; [done|].
  destruct (Ascii.eqb c sep); [done | apply IH].
Qed.

Lemma join_cons sep (p : string) (rest : list string) :
  rest <> [] -> Py.join sep (p :: rest) = p ++ sep ++ Py.join sep rest.
Proof. by destruct rest. Qed.

Lemma string_of_list_ascii_app (l1 l2 : list ascii) :
  string_of_list_ascii (l1 ++ l2)%list
  = string_of_list_ascii l1 ++ string_of_list_ascii l2.
Proof. induction l1 as [|c l1 IH]; cbn; [done | by rewrite IH]. Qed.

Lemma join_split_chars cur cs :
  Py.join "/" (string_of_list_ascii <$> Py.split_chars "/" cur cs)
  = string_of_list_ascii (reverse cur ++ cs)%list.
Proof.
  revert cur. induction cs as [|c cs IH]; intros cur; cbn.
  - by rewrite app_nil_r.
  - destruct (Ascii.eqb_spec c "/") as [-> | Hc].
    + rewrite fmap_cons, join_cons.
      2: { intros Hnil. apply fmap_nil_inv in Hnil.
           by apply split_chars_not_nil in Hnil. }
      rewrite IH. cbn. by rewrite string_of_list_ascii_app.
    + rewrite IH, reverse_cons, <- app_assoc. done.
Qed.

(** Joining what [split] gave, with the separator, gives the string back. *)
Lemma join_split (s : string) : Py.join "/" (Py.split "/" s) = s.
Proof.
  unfold Py.split. rewrite join_split_chars. cbn.
  apply string_of_list_ascii_of_string.
Qed.

Lemma split_chars_no_sep cur cs :
  "/"%char ∉ cs -> Py.split_chars "/" cur cs = [(reverse cur ++ cs)%list].
Proof.
  revert cur. induction cs as [|c cs IH]; intros cur Hno; cbn.
  - by rewrite app_nil_r.
  - apply not_elem_of_cons in Hno as [Hc Hno].
    destruct (Ascii.eqb_spec c "/") as [-> | _]; [done|].
    by rewrite IH, reverse_cons, <- app_assoc.
Qed.

Lemma split_chars_sep cur cs :
  "/"%char ∈ cs -> (2 <= length (Py.split_chars "/" cur cs))%nat.
Proof.
  revert cur. induction cs as [|c cs IH]; intros cur Hin; cbn.
  - by apply elem_of_nil in Hin.
  - destruct (Ascii.eqb_spec c "/") as [-> | Hc].
    + cbn. pose proof (split_chars_not_nil "/" [] cs).
      destruct (Py.split_chars "/" [] cs); [done | cbn; lia].
    + apply elem_of_cons in Hin as [Hin | Hin]; [done | by apply IH].
Qed.

Lemma str_app_assoc (a b c : string) : (a ++ b) ++ c = a ++ (b ++ c).
Proof.
  induction a as [|ch a IH]; [done|].
  change (String ch ((a ++ b) ++ c) = String ch (a ++ b ++ c)). by f_equal.
Qed.

Lemma join_but_last (parts : list string) :
  (2 <= length parts)%nat ->
  Py.join "/" (Py.but_last parts) ++ "/" ++ Py.last_item parts
  = Py.join "/" parts.
Proof.
  unfold Py.but_last, Py.last_item.
  induction parts as [|p [|q rest] IH]; cbn [length]; try lia.
  intros _. destruct rest as [|r rest].
  - done.
  - change (removelast (p :: q :: r :: rest))
      with (p :: removelast (q :: r :: rest)).
    change (List.last (p :: q :: r :: rest) EmptyString)
      with (List.last (q :: r :: rest) EmptyString).
    rewrite join_cons by done. rewrite (join_cons _ p (q :: r :: rest)) by done.
    rewrite <- IH by (cbn; lia).
    by rewrite !str_app_assoc.
Qed.

(** * The command lines *)

(** X5. The directory and the file name [_get_aria2c_process] passes with
    [-d] and [-o] name the output path: put together with a slash they are
    the path, when it has a slash; a path without one is passed as the file
    name, with the empty string for the directory. *)
Theorem aria2c_output_is_the_path (url out : string) (threads : Z) :
  out <> EmptyString ->
  exists args dir file,
    aria2c_command url (Some out) threads
    = (args ++ ["-d"; dir; "-o"; file])%list
    /\ ("/"%char ∈ list_ascii_of_string out -> dir ++ "/" ++ file = out)
    /\ ("/"%char ∉ list_ascii_of_string out ->
        dir = EmptyString /\ file = out).
Proof.
  intros Hout. unfold aria2c_command.
  assert (Htruthy : Py.truthy_str (Some out) = true).
  { cbn. by destruct out. }
  rewrite Htruthy. cbv zeta.
  eexists _, _, _. split; [reflexivity|]. cbn [Py.the_str default].
  change (from_option id EmptyString (Some out)) with out.
  split.
  - intros Hslash. rewrite join_but_last; [apply join_split|].
    unfold Py.split. rewrite length_fmap. by apply split_chars_sep.
  - intros Hnone. unfold Py.split.
    rewrite split_chars_no_sep by done. cbn.
    split; [done | apply string_of_list_ascii_of_string].
Qed.

Lemma aria2c_output_is_the_path_witness :
  exists args dir file,
    aria2c_command "http://host/pkg.tar.gz" (Some "/var/cache/pkg.tar.gz") 4
    = (args ++ ["-d"; dir; "-o"; file])%list
    /\ ("/"%char ∈ list_ascii_of_string "/var/cache/pkg.tar.gz" ->
        dir ++ "/" ++ file = "/var/cache/pkg.tar.gz")
    /\ ("/"%char ∉ list_ascii_of_string "/var/cache/pkg.tar.gz" ->
        dir = EmptyString /\ file = "/var/cache/pkg.tar.gz").
Proof.
  apply (aria2c_output_is_the_path "http://host/pkg.tar.gz"
           "/var/cache/pkg.tar.gz" 4).
  discriminate.
Defined.

(** X6. A URL that ends in a slash has the empty file name, so without an
    output path the file [_rm_bad_file] looks for, and removes with
    [rm -rf] when it is there, is the working directory followed by a
    slash. *)
Theorem artifact_of_url_ending_in_slash (req : DownloadRequest) (base : string) :
  file_url req = base ++ "/" ->
  Py.truthy_str (output_path req) = false ->
  artifact req
  = (if Py.truthy_str (cwd req) then Py.the_str (cwd req) else ".") ++ "/".
Proof.
  intros Hurl Hout. unfold artifact, to_delete. rewrite Hout, Hurl.
  do 2 f_equal. unfold Py.last_item, Py.split.
  assert (Hlast : forall cs cur,
            List.last (string_of_list_ascii
                         <$> Py.split_chars "/" cur (cs ++ ["/"%char])%list)
              EmptyString = EmptyString).
  { induction cs as [|c cs IH]; intros cur; cbn.
    - done.
    - destruct (Ascii.eqb c "/"); cbn.
      + pose proof (split_chars_not_nil "/" [] (cs ++ ["/"%char])%list) as Hne.
        specialize (IH []).
        destruct (Py.split_chars "/" [] (cs ++ ["/"%char])%list); [done|].
        exact IH.
      + apply IH. }
  assert (Hchars : list_ascii_of_string (base ++ "/")
                   = (list_ascii_of_string base ++ ["/"%char])%list).
  { clear. induction base as [|ch base IH]; [done|].
    change (ch :: list_ascii_of_string (base ++ "/")
            = ch :: (list_ascii_of_string base ++ ["/"%char])%list).
    by f_equal. }
  rewrite Hchars. apply Hlast.
Qed.

Lemma artifact_of_url_ending_in_slash_witness :
  artifact (request "http://host/releases/" None) = "./".
Proof.
  apply (artifact_of_url_ending_in_slash
           (request "http://host/releases/" None) "http://host/releases");
    reflexivity.
Defined.

(** X7. [_get_wget_process] passes [--no-check-certificate] exactly when
    the downloader was set up not to check certificates (the URL and the
    output path not being that very word). *)
Theorem wget_skips_certificates_iff
    (self : Downloader) (url : string) (out : option string) :
  url <> "--no-check-certificate" ->
  Py.the_str out <> "--no-check-certificate" ->
  "--no-check-certificate" ∈ wget_command self url out
  <-> check_ssl self = false.
Proof.
  intros Hurl Hout. unfold wget_command.
  destruct (check_ssl self), (Py.truthy_str out); cbn;
    rewrite ?elem_of_cons, elem_of_nil; split; intros H; try done;
    repeat (destruct H as [H | H]; try done); auto 20.
Qed.

Lemma wget_skips_certificates_iff_witness :
  "--no-check-certificate"
  ∈ wget_command {| multithread_enabled := false; multithread_client := None;
                    check_ssl := false |}
      "http://host/pkg.tar.gz" (Some "/var/cache/pkg.tar.gz").
Proof.
  apply (wget_skips_certificates_iff
           {| multithread_enabled := false; multithread_client := None;
              check_ssl := false |}
           "http://host/pkg.tar.gz" (Some "/var/cache/pkg.tar.gz"));
    [discriminate | discriminate | reflexivity].
Defined.

(** * The thread that asks for the size *)

(** X8. Whatever the request for the content length does, the thread ends
    without raising and changes no file; it shows the watcher the text with
    " ( ? Mb )" first and, only when a size came back, the text with that
    size after it. *)
Theorem concat_file_size_shows
    (E : Env) (url base_substatus : string) (w : World) :
  let run := _concat_file_size E url base_substatus true w in
  let asked := emit (EvSubstatus (placeholder_text base_substatus)) w in
  fst run = Return tt
  /\ fs (snd run) = fs w
  /\ match content_length E asked url with
     | Return (Some size) =>
         if String.eqb size EmptyString
         then snd run = asked
         else snd run
              = emit (EvSubstatus (base_substatus ++ " ( " ++ size ++ " )"))
                  asked
     | _ => snd run = asked
     end.
Proof.
  cbv zeta.
  unfold _concat_file_size, bind, attempt, ret, watcher_change_substatus,
    say, http_get_content_length, placeholder_text.
  destruct (content_length E _ url) as [[size|] | e]; cbn; [|done..].
  by destruct (String.eqb size EmptyString).
Qed.

(** * Runs, with the processes in full *)

Section Exactly.

Variable E : Env.
Variable self : Downloader.

Lemma exact_new_SimpleProcess c dir password
    (Q : outcome SimpleProcess -> World -> Prop) w :
  let p := {| cmd := c; proc_cwd := dir; proc_root_password := password |} in
  Q (Return p) (emit (EvNewProcess p None) w) ->
  (forall e, Q (Raise e) (emit (EvNewProcess p (Some e)) w)) ->
  wp (new_SimpleProcess E c dir password) Q w.
Proof.
  intros p Hok Hraise. apply wp_new_SimpleProcess. cbv zeta. fold p.
  destruct (process_error E w p); auto.
Qed.

End Exactly.

Ltac exact_step E :=
  first
    [ lazymatch goal with
      | |- wp (new_SimpleProcess _ _ _ _) _ _ =>
          apply exact_new_SimpleProcess; [|intros ?]
      end;
      unfold emit, start, at_try;
      cbn beta iota zeta delta [trace fs negb fst snd app]
    | any_step E ].

Section ExactParts.

Variable E : Env.
Variable self : Downloader.

Lemma exact_rm_bad_file name out dir handler password
    (Q : outcome (option bool) -> World -> Prop) w :
  let target := to_delete name out dir in
  let p := {| cmd := rm_command target; proc_cwd := None;
              proc_root_password := password |} in
  (target ∉ fs w -> Q (Return None) w) ->
  (forall e, target ∈ fs w ->
     Q (Raise e)
       {| fs := fs w;
          trace := trace w ++ [EvLogInfo ("Removing downloaded file " ++ target);
                               EvNewProcess p (Some e)] |}) ->
  (forall r files heard, target ∈ fs w -> hears handler p heard ->
     Q (removed_of r)
       {| fs := files;
          trace := trace w ++ EvLogInfo ("Removing downloaded file " ++ target)
                     :: EvNewProcess p None :: heard ++ [EvHandle p r] |}) ->
  wp (_rm_bad_file E name out dir handler password) Q w.
Proof.
  intros target p Habsent Hnew Hran. unfold _rm_bad_file.
  rewrite to_delete_truthy. fold target.
  repeat exact_step E.
  all: try match goal with
           | H : bool_decide _ = true |- _ => apply bool_decide_eq_true in H
           | H : bool_decide _ = false |- _ => apply bool_decide_eq_false in H
           end;
       rewrite <- ?app_assoc.
  all: first [ by apply Habsent
             | by apply Hnew
             | match goal with
               | |- context [EvHandle _ ?r] =>
                   first [ by apply (Hran r _ []); [|constructor]
                         | by eapply (Hran r _ [_]); [|constructor] ]
               end ].
Qed.

Lemma download_command_cases (req : DownloadRequest) :
  download_command E self req
  = let client := get_available_multithreaded_tool (interp E) (host E) self in
    let threads :=
      _get_appropriate_threads_number (max_threads req) (known_size req) in
    if Py.truthy_str client then
      if String.eqb (Py.the_str client) "aria2"
      then aria2c_command (file_url req) (output_path req) threads
      else axel_command self (file_url req) (output_path req) threads
    else wget_command self (file_url req) (output_path req).
Proof.
  unfold download_command, is_multithreaded. cbv zeta.
  destruct (get_available_multithreaded_tool (interp E) (host E) self)
    as [c|]; [|done].
  destruct (Py.truthy_str (Some c)); [|done].
  change (Py.the_str (Some c)) with c.
  destruct (String.eqb_spec c "aria2") as [-> | Hc].
  - by rewrite bool_decide_eq_true_2.
  - rewrite bool_decide_eq_false_2; [|congruence]. done.
Qed.

Lemma exact_launch req final_cwd (Q : outcome bool -> World -> Prop) w :
  let p := {| cmd := download_command E self req;
              proc_cwd := Some final_cwd;
              proc_root_password := root_password req |} in
  (forall e,
     Q (Raise e)
       {| fs := fs w; trace := trace w ++ [EvNewProcess p (Some e)] |}) ->
  (forall told r files heard, tells req told -> hears (watcher req) p heard ->
     Q (success_of r)
       {| fs := files;
          trace := trace w ++ EvNewProcess p None :: told ++ heard
                     ++ [EvHandle p r] |}) ->
  wp (launch E self req
        (get_available_multithreaded_tool (interp E) (host E) self) final_cwd)
     Q w.
Proof.
  intros p Hnew Hran. unfold p in *. clear p.
  rewrite download_command_cases in Hnew, Hran. cbv zeta in Hnew, Hran.
  unfold launch.
  unfold _get_aria2c_process, _get_axel_process, _get_wget_process.
  repeat exact_step E.
  all: rewrite <- ?app_assoc.
  all: first
    [ by apply Hnew
    | match goal with
      | |- context [EvHandle _ ?r] =>
          first [ by apply (Hran [] r _ []); constructor
                | by eapply (Hran [_] r _ [_]); constructor ]
      end ].
Qed.

End ExactParts.

Ltac exact_download_step E :=
  first
    [ lazymatch goal with
      | |- wp (download _ _ _) _ _ => unfold download
      | |- wp (prepare_output _ _) _ _ => unfold prepare_output
      | |- wp (on_exception _ _ _ _ _) _ _ => unfold on_exception
      | |- wp (finish _ _ _ _ _ _) _ _ => unfold finish
      | |- wp (_rm_bad_file _ _ _ _ _ _) _ _ =>
          apply exact_rm_bad_file;
          [intros ? | intros ? ?
          | let Hheard := fresh "Hheard" in
            intros ? ? ? ? Hheard; destruct Hheard]
      | |- wp (launch _ _ _ _ _) _ _ =>
          apply exact_launch;
          [intros ?
          | let Htold := fresh "Htold" in
            let Hheard := fresh "Hheard" in
            intros ? ? ? ? Htold Hheard; destruct Htold, Hheard]
      | |- context [success_of ?r] => is_var r; destruct r as [[[] ?] | ?]
      | |- context [removed_of ?r] => is_var r; destruct r as [[? ?] | ?]
      end;
      unfold emit, start, at_try;
      cbn beta iota zeta delta
        [trace fs negb fst snd app success_of removed_of];
      try watcher_known
    | any_step E ].

(** * More on what a call does *)

Ltac all_events tac :=
  repeat first [ apply Forall_nil_2 | apply Forall_cons_2; [tac|] ].

(** X9. Without an output path, [None] or the empty string, a call neither
    removes a file nor makes a directory itself. *)
Theorem no_output_path_no_fs_call
    (E : Env) (self : Downloader) (req : DownloadRequest) (files : gset string) :
  Py.truthy_str (output_path req) = false ->
  Forall (fun e => is_fs_call e = false)
    (trace (snd (download E self req (start files)))).
Proof.
  intros Hout.
  change (wp (download E self req)
            (fun _ w' => Forall (fun e => is_fs_call e = false) (trace w'))
            (start files)).
  repeat (download_step E).
  all: cbn [trace]; all_events ltac:(reflexivity).
Qed.

Lemma no_output_path_no_fs_call_witness :
  Forall (fun e => is_fs_call e = false)
    (trace (snd (download (calm (host_with true true true)) a_downloader
                   (request "http://host/pkg.tar.gz" (Some EmptyString))
                   (start ∅)))).
Proof. apply no_output_path_no_fs_call. reflexivity. Defined.

(** X10. Every process a call makes or runs is its download process, the
    command line the downloader's answers give, in the working directory,
    with the root password, or the clean-up [rm -rf] of the file the
    download may have left, with the same password. *)
Theorem processes_of_a_call
    (E : Env) (self : Downloader) (req : DownloadRequest) (files : gset string) :
  Forall (fun e => forall p, process_of e = Some p ->
                     p = download_process E self req \/ p = cleanup_process req)
    (trace (snd (download E self req (start files)))).
Proof.
  change (wp (download E self req)
            (fun _ w' =>
               Forall (fun e => forall p, process_of e = Some p ->
                         p = download_process E self req
                         \/ p = cleanup_process req) (trace w'))
            (start files)).
  repeat (exact_download_step E).
  all: cbn [trace];
    all_events ltac:(intros ? [= <-]; first [by left | by right]).
Qed.



Section Counting.

Variable E : Env.
Variable self : Downloader.
Variable req : DownloadRequest.

Lemma backend_download_command : backend_command (download_command E self req).
Proof.
  rewrite download_command_cases. cbv zeta.
  repeat case_match;
    [apply backend_aria2c | apply backend_axel | apply backend_wget].
Qed.

Lemma is_backend_run_download dir password r :
  is_backend_run
    (EvHandle {| cmd := download_command E self req; proc_cwd := dir;
                 proc_root_password := password |} r) = true.
Proof.
  cbn. destruct backend_download_command as (tool & rest & -> & Htool).
  by apply bool_decide_eq_true_2.
Qed.

Lemma is_backend_run_rm target dir password r :
  is_backend_run
    (EvHandle {| cmd := rm_command target; proc_cwd := dir;
                 proc_root_password := password |} r) = false.
Proof. reflexivity. Qed.

End Counting.

(** X12. In one call the download tool is run at most once, at most one
    thread is started, and at most three processes are run in all. *)
Theorem one_download_per_call
    (E : Env) (self : Downloader) (req : DownloadRequest) (files : gset string) :
  let evs := trace (snd (download E self req (start files))) in
  (count is_backend_run evs <= 1)%nat
  /\ (count is_thread_start evs <= 1)%nat
  /\ (count is_handle evs <= 3)%nat.
Proof.
  cbv zeta.
  change (wp (download E self req)
            (fun _ w' =>
               (count is_backend_run (trace w') <= 1)%nat
               /\ (count is_thread_start (trace w') <= 1)%nat
               /\ (count is_handle (trace w') <= 3)%nat)
            (start files)).
  repeat (exact_download_step E).
  all: cbn [trace count];
    rewrite ?is_backend_run_download, ?is_backend_run_rm;
    cbn [is_backend_run is_thread_start is_handle]; lia.
Qed.

(** X13. The thread that asks the server for the size is started only when
    there is a watcher, the size is to be displayed and the caller gave no
    size; it is started for the URL of the call. *)
Theorem thread_only_when_asked
    (E : Env) (self : Downloader) (req : DownloadRequest) (files : gset string)
    (t : thread) :
  EvThreadStart t ∈ trace (snd (download E self req (start files))) ->
  watcher req = true
  /\ display_file_size req = true
  /\ Py.truthy_int (known_size req) = false
  /\ exists msg, t = ConcatFileSize (file_url req) msg.
Proof.
  change (wp (download E self req)
            (fun _ w' =>
               EvThreadStart t ∈ trace w' ->
               watcher req = true
               /\ display_file_size req = true
               /\ Py.truthy_int (known_size req) = false
               /\ exists msg, t = ConcatFileSize (file_url req) msg)
            (start files)).
  repeat (exact_download_step E).
  all: cbn [trace]; intros Hin.
  all: repeat (apply elem_of_cons in Hin as [Hin | Hin];
               [try discriminate; injection Hin as ->; by eauto 10|]).
  all: by apply elem_of_nil in Hin.
Qed.

Lemma thread_only_when_asked_witness :
  display_file_size (request "http://host/pkg.tar.gz" None) = true.
Proof.
  apply (thread_only_when_asked (calm (host_with true true true)) a_downloader
           (request "http://host/pkg.tar.gz" None) ∅
           (ConcatFileSize "http://host/pkg.tar.gz"
              "<b>[aria2]</b> downloading <b>pkg.tar.gz</b>")).
  vm_compute. repeat first [apply list_elem_of_here | apply list_elem_of_further].
Defined.

(** X14. Without a watcher nothing is shown and no thread is started,
    however the call goes. *)
Theorem no_watcher_no_word
    (E : Env) (self : Downloader) (req : DownloadRequest) (files : gset string) :
  watcher req = false ->
  Forall (fun e => is_watcher_event e = false)
    (trace (snd (download E self req (start files)))).
Proof.
  intros Hnone.
  change (wp (download E self req)
            (fun _ w' =>
               Forall (fun e => is_watcher_event e = false) (trace w'))
            (start files)).
  repeat (exact_download_step E).
  all: try congruence.
  all: cbn [trace]; all_events ltac:(reflexivity).
Qed.

Lemma no_watcher_no_word_witness :
  Forall (fun e => is_watcher_event e = false)
    (trace (snd (download (calm (host_with true true true)) a_downloader
                   {| file_url := "http://host/pkg.tar.gz"; watcher := false;
                      output_path := None; cwd := None; root_password := None;
                      substatus_prefix := None; display_file_size := true;
                      max_threads := None; known_size := None |}
                   (start ∅)))).
Proof. apply no_watcher_no_word. reflexivity. Defined.

(** X15. The time that is logged is not that of the whole call.  In this
    run a file is at the output path and is removed first; the clock, which
    here counts what has happened, reads 1 at line 141, and the time is
    logged from 4, the reading of line 171 made after the removal, to 8. *)
Lemma logged_time_starts_at_last_reading :
  let E := calm (host_with false false true) in
  let req := request "http://host/pkg.tar.gz" (Some "/tmp/pkg.tar.gz") in
  let files : gset string := {["/tmp/pkg.tar.gz"]} in
  let run := download E a_downloader req (start files) in
  fst run = Return true
  /\ clock E (at_try req files) = 1
  /\ clock E (last_reading E req files) = 4
  /\ EvLogTook "pkg.tar.gz" 4 8 ∈ trace (snd run)
  /\ ~ (exists tf, EvLogTook "pkg.tar.gz" 1 tf ∈ trace (snd run)).
Proof.
  cbv zeta. do 3 (split; [by vm_compute|]). split.
  - vm_compute. in_list.
  - intros (tf & Hin). revert Hin.
    match goal with
    | |- _ ∈ ?evs -> _ =>
        let evs' := eval vm_compute in evs in
        change evs with evs'
    end.
    intros Hin. not_in_list Hin.
Qed.

(** X16. An exception raised while the clean-up process is made or run is
    the exception the call raises: [download] does not catch it. *)
Theorem cleanup_exception_escapes
    (E : Env) (self : Downloader) (req : DownloadRequest) (files : gset string)
    (e : exn) :
  let run := download E self req (start files) in
  cleanup_raised req e (trace (snd run)) ->
  fst run = Raise e.
Proof.
  cbv zeta.
  change (wp (download E self req)
            (fun r w' => cleanup_raised req e (trace w') -> r = Raise e)
            (start files)).
  repeat (download_step E).
  all: tidy_run; intros (q & Hq & [Hin | Hin]).
  all: repeat (apply elem_of_cons in Hin as [Hin | Hin];
               [ try discriminate;
                 injection Hin as -> ->;
                 first [ reflexivity
                       | exfalso; eapply backend_not_rm; eassumption ] |]).
  all: by apply elem_of_nil in Hin.
Qed.

Lemma cleanup_exception_escapes_witness :
  fst (download (no_spawn (host_with false false true)) a_downloader
         (request "http://host/pkg.tar.gz" None) (start {["./pkg.tar.gz"]}))
  = Raise OSError.
Proof.
  apply cleanup_exception_escapes.
  exists (cleanup_process (request "http://host/pkg.tar.gz" None)).
  split; [reflexivity|]. left. vm_compute. in_list.
Defined.
